(** * ReLoRA distributed training driver ([torchrun_main.py])

    A shallow embedding of the training-loop state machine of
    [torchrun_main.py]: the start-up batch-size check, the micro-step /
    update-step bookkeeping of the training loop, the merge-and-reset
    trigger, periodic and end-of-training checkpoints, the resume path and
    the evaluation runner.

    The model follows one process of the data-parallel group; the group
    runs in lockstep and shares one disk.  Forward and backward passes, the
    optimizer, the scheduler and the adapter merge are external
    collaborators and enter through the [Collaborators] interface; the
    construction of data sets, tokenizer, model and optimizer in [main] is
    not modelled, [main] receiving what they produce.  Progress bars,
    experiment tracking, log lines and the wall-clock value [update_time]
    have no influence on the control flow below and are left out.

    Python integers are unbounded and are modelled by [Z]; a value that may
    be [None] is an [option]; exceptions are an explicit result.  The
    training loop leaves a trace of what it executed, so that statements
    about how often and when something happened can be read off a run. *)

From Stdlib Require Import ZArith List Bool Lia Ascii String.
From Stdlib Require Import Floats.SpecFloat.
From stdpp Require Import base gmap strings pretty.

Import ListNotations.
Local Open Scope Z_scope.

(** ** Python values and exceptions *)

Module Py.

Inductive exn :=
| AssertionError (msg : string)
| TypeError
| ZeroDivisionError
| ValueError
| RuntimeError
| OverflowError
| AttributeError
| UnboundLocalError
| FileNotFoundError
| FileExistsError
(** a peer never joins a barrier or reduction: the group hangs or the
    collective fails *)
| CollectiveDesync.

Inductive result (A : Type) :=
| Ok (a : A)
| Raise (e : exn).
Arguments Ok {A} a.
Arguments Raise {A} e.

Definition bind {A B} (c : result A) (k : A -> result B) : result B :=
  match c with
  | Ok a => k a
  | Raise e => Raise e
  end.

(** [a % b] on integers: the result takes the sign of the divisor, and a
    zero divisor raises. *)
Definition mod_ (a b : Z) : result Z :=
  if b =? 0 then Raise ZeroDivisionError else Ok (a mod b).

(** [a // b] on integers. *)
Definition floordiv (a b : Z) : result Z :=
  if b =? 0 then Raise ZeroDivisionError else Ok (a / b).

(** [a % b] where [b] may be [None]. *)
Definition mod_opt (a : Z) (b : option Z) : result Z :=
  match b with
  | None => Raise TypeError
  | Some b => mod_ a b
  end.

(** [x is not None] *)
Definition is_not_None {A} (x : option A) : bool :=
  match x with Some _ => true | None => false end.

End Py.

Notation "'do' x <- c ; k" := (Py.bind c (fun x => k))
  (at level 10, x name, c at level 100, k at level 200).

(** ** Single-precision tensors of dimension zero

    [torch.zeros(n)] is a binary32 tensor; its entries are modelled by the
    IEEE-754 specification floats of the standard library at precision 24. *)

Module F32.

Definition prec : Z := 24.
Definition emax : Z := 128.

Definition zero : spec_float := S754_zero false.
Definition add : spec_float -> spec_float -> spec_float := SFadd prec emax.
Definition div : spec_float -> spec_float -> spec_float := SFdiv prec emax.
Definition mul : spec_float -> spec_float -> spec_float := SFmul prec emax.

(** Conversion of a Python integer, rounding to nearest even. *)
Definition of_Z (z : Z) : spec_float := binary_normalize prec emax z 0 false.

(** [x.reciprocal()] *)
Definition reciprocal (x : spec_float) : spec_float := div (of_Z 1) x.

(** [other / x] for a Python number [other] on the left of a tensor [x]:
    the reflected division of a tensor is [x.reciprocal() * other], two
    operations, each rounded to binary32. *)
Definition rtruediv (x : spec_float) (other : Z) : spec_float :=
  mul (reciprocal x) (of_Z other).

(** [torch.isnan] *)
Definition isnan (x : spec_float) : bool :=
  match x with S754_nan => true | _ => false end.

(** [torch.isfinite] *)
Definition isfinite (x : spec_float) : bool :=
  match x with S754_nan | S754_infinity _ => false | _ => true end.

(** [int(x)]: truncation towards zero; infinities and NaN raise. *)
Definition to_int (x : spec_float) : Py.result Z :=
  match x with
  | S754_nan => Py.Raise Py.ValueError
  | S754_infinity _ => Py.Raise Py.OverflowError
  | S754_zero _ => Py.Ok 0
  | S754_finite s m e => Py.Ok (cond_Zopp s (Z.shiftl (Zpos m) e))
  end.

End F32.

(** ** Paths *)

Module Path.

Definition is_slash (c : Ascii.ascii) : bool := Ascii.eqb c "/"%char.

(** On a reversed path: what is left once the last component is dropped. *)
Fixpoint after_slash (r : string) : string :=
  match r with
  | EmptyString => EmptyString
  | String c r' => if is_slash c then r else after_slash r'
  end.

Fixpoint all_slash (s : string) : bool :=
  match s with
  | EmptyString => true
  | String c s' => is_slash c && all_slash s'
  end.

Fixpoint lstrip_slash (s : string) : string :=
  match s with
  | EmptyString => EmptyString
  | String c s' => if is_slash c then lstrip_slash s' else s
  end.

(** [os.path.dirname] *)
Definition dirname (p : string) : string :=
  let h := after_slash (String.rev p) in
  if all_slash h then String.rev h else String.rev (lstrip_slash h).

(** [os.path.join d name] for a directory [d] written without a trailing
    separator and a relative [name], which is how every call below uses
    it; it coincides with the f-string [f"{d}/{name}"]. *)
Definition join (d name : string) : string := d +:+ "/" +:+ name.

End Path.

(** ** External collaborators *)

Class Collaborators := {
  (** weights, adapter factors and gradient buffers *)
  Model : Type;
  (** moment estimates and parameter groups *)
  Optimizer : Type;
  Scheduler : Type;
  Batch : Type;
  (** number of token ids in the batch: [numel()] of its [input_ids] *)
  numel : Batch -> Z;
  (** the [loss] of the forward pass on a batch, labels being its
      [input_ids] *)
  forward_loss : Model -> Batch -> spec_float;
  (** [(loss / gradient_accumulation).backward()]: accumulates into the
      gradient buffers *)
  backward : Z -> Model -> Batch -> Model;
  (** [optimizer.step()] *)
  optimizer_step : Optimizer -> Model -> Optimizer * Model;
  (** [scheduler.step()]: moves the schedule and rewrites the learning rate
      held by the optimizer *)
  scheduler_step : Scheduler -> Optimizer -> Scheduler * Optimizer;
  (** [optimizer.zero_grad()] *)
  zero_grad : Model -> Model;
  (** [model.module.merge_and_reinit()] *)
  merge_and_reinit : Model -> Model;
  (** [model.apply(merge_and_reinit_functional)] *)
  merge_and_reinit_functional : Model -> Model;
  (** [training_utils.optimizer_reset] on the adapter parameters, with the
      reset and pruning options of the run *)
  optimizer_reset : Optimizer -> Optimizer;
}.

(** ** Run parameters *)

Record Args := mkArgs {
  batch_size : option Z;
  gradient_accumulation : option Z;
  total_batch_size : option Z;
  max_train_tokens : option Z;
  num_training_steps : Z;
  relora : option Z;
  resume_from : option string;
  warmed_up_model : option string;
  use_peft : bool;
  autoresume : bool;
  save_every : Z;
  eval_every : Z;
  save_dir : string;
  distributed_type : string;
}.

Definition set_gradient_accumulation (a : Args) (v : option Z) : Args :=
  mkArgs (batch_size a) v (total_batch_size a) (max_train_tokens a)
    (num_training_steps a) (relora a) (resume_from a) (warmed_up_model a)
    (use_peft a) (autoresume a) (save_every a) (eval_every a) (save_dir a)
    (distributed_type a).

Definition set_num_training_steps (a : Args) (v : Z) : Args :=
  mkArgs (batch_size a) (gradient_accumulation a) (total_batch_size a)
    (max_train_tokens a) v (relora a) (resume_from a) (warmed_up_model a)
    (use_peft a) (autoresume a) (save_every a) (eval_every a) (save_dir a)
    (distributed_type a).

Definition set_resume_from (a : Args) (v : option string) : Args :=
  mkArgs (batch_size a) (gradient_accumulation a) (total_batch_size a)
    (max_train_tokens a) (num_training_steps a) (relora a) v (warmed_up_model a)
    (use_peft a) (autoresume a) (save_every a) (eval_every a) (save_dir a)
    (distributed_type a).

Definition set_warmed_up_model (a : Args) (v : option string) : Args :=
  mkArgs (batch_size a) (gradient_accumulation a) (total_batch_size a)
    (max_train_tokens a) (num_training_steps a) (relora a) (resume_from a)
    v (use_peft a) (autoresume a) (save_every a) (eval_every a)
    (save_dir a) (distributed_type a).

(** ** Start-up arithmetic of [main] *)

(** [args.gradient_accumulation * args.batch_size * world_size ==
    args.total_batch_size], where an operand that is [None] makes the
    product raise and a [None] total makes the comparison false. *)
Definition batch_sizes_agree (a : Args) (world_size : Z) : Py.result bool :=
  match gradient_accumulation a, batch_size a with
  | Some ga, Some bs =>
      match total_batch_size a with
      | Some total => Py.Ok (ga * bs * world_size =? total)
      | None => Py.Ok false
      end
  | _, _ => Py.Raise Py.TypeError
  end.

(** The derivation of a missing [gradient_accumulation] and the assertion
    that follows it. *)
Definition check_batch_sizes (a : Args) (world_size : Z) : Py.result Args :=
  do a <-
    match total_batch_size a, gradient_accumulation a with
    | Some total, None =>
        do r <- Py.mod_ total world_size;
        if negb (r =? 0)
        then Py.Raise (Py.AssertionError "total_batch_size must be divisible by world_size")
        else
          match batch_size a with
          | None => Py.Raise Py.TypeError
          | Some bs =>
              do ga <- Py.floordiv total (bs * world_size);
              if 0 <? ga
              then Py.Ok (set_gradient_accumulation a (Some ga))
              else Py.Raise (Py.AssertionError "gradient_accumulation must be greater than 0")
          end
    | _, _ => Py.Ok a
    end;
  do agree <- batch_sizes_agree a world_size;
  if agree then Py.Ok a
  else Py.Raise (Py.AssertionError
         "gradient_accumulation * batch_size * world_size must be equal to total_batch_size").

(** [args.num_training_steps = args.max_train_tokens // args.total_batch_size] *)
Definition apply_max_train_tokens (a : Args) : Py.result Args :=
  match max_train_tokens a with
  | None => Py.Ok a
  | Some tokens =>
      match total_batch_size a with
      | None => Py.Raise Py.TypeError
      | Some total =>
          do n <- Py.floordiv tokens total;
          Py.Ok (set_num_training_steps a n)
      end
  end.

Section Training.

Context `{C : Collaborators}.

(** The process group as seen from one process. *)
Record Env := mkEnv {
  world_size : Z;
  global_rank : nat;
  (** the evaluation data of every rank, in rank order *)
  eval_loaders : list (list Batch);
  (** the test data of every rank, when the data set comes with one *)
  test_loaders : option (list (list Batch));
}.

(** [training_state_checkpoint], without [update_time] *)
Record TrainingStateCheckpoint := mkTrainingStateCheckpoint {
  ck_global_step : Z;
  ck_update_step : Z;
  ck_tokens_seen : Z;
  ck_tokens_seen_before : Z;
  ck_n_lora_restarts : Z;
}.

(** [optimizer_checkpoint], without the run configuration and dtype.  A
    state dict is taken to be the state itself. *)
Record OptimizerCheckpoint := mkOptimizerCheckpoint {
  oc_optimizer : Optimizer;
  oc_scheduler : Scheduler;
  oc_update_step : Z;
  oc_global_step : Z;
}.

Inductive File :=
| FDir
| FWeights (m : Model)
| FOptimizerPt (oc : OptimizerCheckpoint)
| FTrainingState (ts : TrainingStateCheckpoint)
| FTrainingConfig (old_batch_size : option Z).

Inductive Event :=
| EvForward (global_step : Z)
| EvOptimizerStep (update_step : Z)
| EvSave (dir : string) (ts : TrainingStateCheckpoint)
| EvReset (update_step : Z)
| EvEval (update_step : Z).

(** The local variables of [main] that the training loop reads and
    writes, the shared disk, and the trace of what has been executed
    (most recent first). *)
Record LoopState := mkLoopState {
  global_step : Z;
  local_step : Z;
  update_step : Z;
  tokens_seen : Z;
  tokens_seen_before : Z;
  n_lora_restarts : Z;
  model : Model;
  optimizer : Optimizer;
  scheduler : Scheduler;
  disk : gmap string File;
  events : list Event;
}.

(** ** Views of the trace *)

(** Update steps at which the merge-and-reset fired, most recent first. *)
Fixpoint resets (evs : list Event) : list Z :=
  match evs with
  | [] => []
  | EvReset u :: evs => u :: resets evs
  | _ :: evs => resets evs
  end.

(** Update steps reached by an optimizer update, most recent first. *)
Fixpoint updates (evs : list Event) : list Z :=
  match evs with
  | [] => []
  | EvOptimizerStep u :: evs => u :: updates evs
  | _ :: evs => updates evs
  end.

(** Micro-steps for which a loss was computed, most recent first. *)
Fixpoint forwards (evs : list Event) : list Z :=
  match evs with
  | [] => []
  | EvForward g :: evs => g :: forwards evs
  | _ :: evs => forwards evs
  end.

(** Directories handed to [save_model], with the training state recorded
    there, most recent first. *)
Fixpoint saves (evs : list Event) : list (string * TrainingStateCheckpoint) :=
  match evs with
  | [] => []
  | EvSave dir ts :: evs => (dir, ts) :: saves evs
  | _ :: evs => saves evs
  end.

(** ** Filesystem *)

(** [os.path.exists].  A path is looked up as it is written: the disk
    holds one spelling of each path, without trailing or doubled
    separators. *)
Definition exists_ (d : gmap string File) (p : string) : bool :=
  match d !! p with Some _ => true | None => false end.

(** [os.makedirs(p, exist_ok=True)] *)
Definition makedirs (d : gmap string File) (p : string) : Py.result (gmap string File) :=
  if String.eqb p "" then Py.Raise Py.FileNotFoundError
  else match d !! p with
       | None | Some FDir => Py.Ok (<[p := FDir]> d)
       | Some _ => Py.Raise Py.FileExistsError
       end.

(** ** Evaluation runner ([evaluate_model]) *)

(** [dist.all_reduce(t, op=dist.ReduceOp.SUM)] on one entry: every rank
    receives the same sum of all contributions. *)
Definition all_reduce_sum (contributions : list spec_float) : spec_float :=
  fold_left F32.add contributions F32.zero.

(** What a rank adds to [tokens_in_batch_info] before the first
    reduction. *)
Definition first_batch_tokens (loader : list Batch) : spec_float :=
  match loader with
  | [] => F32.zero
  | b :: _ => F32.add F32.zero (F32.of_Z (numel b))
  end.

Definition is_empty_loader (loader : list Batch) : bool :=
  match loader with [] => true | _ => false end.

(** [n_eval_iters], the same value on every rank that enters the loop: the
    budget, a Python integer, divided by the reduced token count, a
    binary32 tensor, and truncated by [int]. *)
Definition n_eval_iters (loaders : list (list Batch)) (target_eval_tokens : Z)
  : Py.result Z :=
  let tokens_in_batch_info := all_reduce_sum (map first_batch_tokens loaders) in
  F32.to_int (F32.rtruediv tokens_in_batch_info target_eval_tokens).

(** The body of the [for i, batch in enumerate(eval_dataloader)] loop from
    index [i] on.  The result is [ddp_loss_info] and the number of forward
    passes made. *)
Fixpoint eval_batches (m : Model) (target_eval_tokens n_iters i : Z)
    (loss_sum token_sum : spec_float) (passes : nat) (batches : list Batch)
  : Py.result (spec_float * spec_float * nat) :=
  match batches with
  | [] => Py.Ok (loss_sum, token_sum, passes)
  | batch :: rest =>
      if negb (target_eval_tokens =? -1) && (n_iters <? i)
      then Py.Ok (loss_sum, token_sum, passes)
      else
        let loss := forward_loss m batch in
        let tokens_in_batch := numel batch in
        if 0 <? tokens_in_batch
        then eval_batches m target_eval_tokens n_iters (i + 1)
               (F32.add loss_sum loss)
               (F32.add token_sum (F32.of_Z tokens_in_batch))
               (S passes) rest
        else Py.Raise (Py.AssertionError "Batch size is zero")
  end.

(** The loop of rank [r], up to and including the check of the local loss
    sum. *)
Definition eval_rank (loaders : list (list Batch)) (m : Model)
    (target_eval_tokens : Z) (r : nat) : Py.result (spec_float * spec_float * nat) :=
  do acc <-
    match nth r loaders [] with
    | [] => Py.Ok (F32.zero, F32.zero, O)
    | batches =>
        if existsb is_empty_loader loaders then Py.Raise Py.CollectiveDesync
        else
          do n_iters <- n_eval_iters loaders target_eval_tokens;
          eval_batches m target_eval_tokens n_iters 0 F32.zero F32.zero O batches
    end;
  if F32.isnan (fst (fst acc)) then Py.Raise Py.RuntimeError else Py.Ok acc.

(** Local results of all ranks, for the closing reduction; a rank that
    raised does not take part in it. *)
Fixpoint gather (rs : list (Py.result (spec_float * spec_float * nat)))
  : Py.result (list (spec_float * spec_float * nat)) :=
  match rs with
  | [] => Py.Ok []
  | Py.Ok acc :: rest => do accs <- gather rest; Py.Ok (acc :: accs)
  | Py.Raise _ :: _ => Py.Raise Py.CollectiveDesync
  end.

(** [evaluate_model(model, eval_dataloader, device, target_eval_tokens)]
    on rank [global_rank]: the pair [(eval_loss, evaluated_on_tokens)]. *)
Definition evaluate_model (rank : nat) (loaders : list (list Batch)) (m : Model)
    (target_eval_tokens : Z) : Py.result (spec_float * spec_float) :=
  do _mine <- eval_rank loaders m target_eval_tokens rank;
  do accs <- gather (map (eval_rank loaders m target_eval_tokens)
                         (seq 0 (length loaders)));
  let loss := all_reduce_sum (map (fun acc => fst (fst acc)) accs) in
  let tokens := all_reduce_sum (map (fun acc => snd (fst acc)) accs) in
  Py.Ok (F32.div loss tokens, tokens).

(** Number of forward passes rank [r] makes in one evaluation. *)
Definition eval_passes (loaders : list (list Batch)) (m : Model)
    (target_eval_tokens : Z) (r : nat) : option nat :=
  match eval_rank loaders m target_eval_tokens r with
  | Py.Ok acc => Some (snd acc)
  | Py.Raise _ => None
  end.

(** ** Checkpoint store ([save_model]) *)

(** [save_model_ddp].  The writes are those of rank 0; every process sees
    them on the shared disk once the closing barrier is passed. *)
Definition save_model_ddp (d : gmap string File) (m : Model) (o : Optimizer)
    (s : Scheduler) (training_state_checkpoint : TrainingStateCheckpoint)
    (save_dir : string) : Py.result (gmap string File) :=
  let update_step := ck_update_step training_state_checkpoint in
  do d <- makedirs d (Path.dirname save_dir);
  (* save_pretrained(save_dir) *)
  do d <- makedirs d save_dir;
  let d := <[Path.join save_dir "pytorch_model.bin" := FWeights m]> d in
  let optimizer_checkpoint :=
    {| oc_optimizer := o;
       oc_scheduler := s;
       oc_update_step := update_step;
       oc_global_step := ck_global_step training_state_checkpoint |} in
  let d := <[Path.join save_dir "optimizer.pt" := FOptimizerPt optimizer_checkpoint]> d in
  Py.Ok (<[Path.join save_dir "training_state.json"
            := FTrainingState training_state_checkpoint]> d).

(** [save_model_fsdp] *)
Definition save_model_fsdp (d : gmap string File) : Py.result (gmap string File) :=
  Py.Raise Py.RuntimeError.

Definition save_model (d : gmap string File) (m : Model) (o : Optimizer)
    (s : Scheduler) (training_state_checkpoint : TrainingStateCheckpoint)
    (distributed_type save_dir : string) : Py.result (gmap string File) :=
  if String.eqb distributed_type "ddp"
  then save_model_ddp d m o s training_state_checkpoint save_dir
  else if String.eqb distributed_type "fsdp"
  then save_model_fsdp d
  else Py.Raise Py.ValueError.

(** ** Training loop *)

(** How one pass through the loop body, or one phase of it, ends. *)
Inductive Flow :=
| Proceed (st : LoopState)            (* falls through to the next statement *)
| Continue (st : LoopState)           (* [continue] *)
| Break (st : LoopState)              (* [break] *)
| Raised (e : Py.exn) (st : LoopState).

Definition then_ (f : Flow) (k : LoopState -> Flow) : Flow :=
  match f with
  | Proceed st => k st
  | other => other
  end.

(** The dictionary built before each [save_model] call. *)
Definition training_state_checkpoint (st : LoopState) : TrainingStateCheckpoint :=
  {| ck_global_step := global_step st;
     ck_update_step := update_step st;
     ck_tokens_seen := tokens_seen st;
     ck_tokens_seen_before := tokens_seen_before st;
     ck_n_lora_restarts := n_lora_restarts st |}.

(** From the head of the loop body to the gradient-accumulation test. *)
Definition micro_step (a : Args) (env : Env) (st : LoopState) (batch : Batch) : Flow :=
  let global_step := global_step st + 1 in
  let local_step := local_step st + 1 in
  if num_training_steps a <=? update_step st
  then Break (mkLoopState global_step local_step (update_step st)
                (tokens_seen st) (tokens_seen_before st) (n_lora_restarts st)
                (model st) (optimizer st) (scheduler st) (disk st) (events st))
  else
    let tokens_seen := tokens_seen st + numel batch * world_size env in
    let loss := forward_loss (model st) batch in
    let events := EvForward global_step :: events st in
    if F32.isnan loss
    then Raised (Py.AssertionError "Loss is nan")
           (mkLoopState global_step local_step (update_step st)
              tokens_seen (tokens_seen_before st) (n_lora_restarts st)
              (model st) (optimizer st) (scheduler st) (disk st) events)
    else
      match gradient_accumulation a with
      | None =>
          Raised Py.TypeError
            (mkLoopState global_step local_step (update_step st)
               tokens_seen (tokens_seen_before st) (n_lora_restarts st)
               (model st) (optimizer st) (scheduler st) (disk st) events)
      | Some ga =>
          let st' :=
            mkLoopState global_step local_step (update_step st)
              tokens_seen (tokens_seen_before st) (n_lora_restarts st)
              (backward ga (model st) batch) (optimizer st) (scheduler st)
              (disk st) events in
          match Py.mod_ global_step ga with
          | Py.Raise e => Raised e st'
          | Py.Ok r => if r =? 0 then Proceed st' else Continue st'
          end
      end.

(** [optimizer.step(); scheduler.step(); optimizer.zero_grad();
    update_step += 1] *)
Definition optimizer_update (st : LoopState) : LoopState :=
  let stepped := optimizer_step (optimizer st) (model st) in
  let scheduled := scheduler_step (scheduler st) (fst stepped) in
  let update_step := update_step st + 1 in
  mkLoopState (global_step st) (local_step st) update_step
    (tokens_seen st) (tokens_seen_before st) (n_lora_restarts st)
    (zero_grad (snd stepped)) (snd scheduled) (fst scheduled) (disk st)
    (EvOptimizerStep update_step :: events st).

(** [f"{args.save_dir}/model_{update_step}"] *)
Definition model_directory (a : Args) (update_step : Z) : string :=
  save_dir a +:+ "/model_" +:+ pretty update_step.

(** The periodic checkpoint. *)
Definition periodic_save (a : Args) (ga : Z) (st : LoopState) : Flow :=
  if ga <? local_step st then
    match Py.mod_ (update_step st) (save_every a) with
    | Py.Raise e => Raised e st
    | Py.Ok r =>
        if r =? 0 then
          let current_model_directory := model_directory a (update_step st) in
          let ts := training_state_checkpoint st in
          match save_model (disk st) (model st) (optimizer st) (scheduler st) ts
                  (distributed_type a) current_model_directory with
          | Py.Raise e => Raised e st
          | Py.Ok d =>
              Proceed (mkLoopState (global_step st) (local_step st) (update_step st)
                         (tokens_seen st) (tokens_seen_before st) (n_lora_restarts st)
                         (model st) (optimizer st) (scheduler st) d
                         (EvSave current_model_directory ts :: events st))
          end
        else Proceed st
    end
  else Proceed st.

Definition can_reset (a : Args) (ga local_step : Z) : bool :=
  Py.is_not_None (resume_from a)
  || match relora a with
     | Some interval => interval <? local_step * ga
     | None => false
     end.

(** Whether the merge-and-reset block is entered with these values of
    [local_step] and [update_step]. *)
Definition reset_due (a : Args) (ga local_step update_step : Z) : bool :=
  can_reset a ga local_step
  && match Py.mod_opt update_step (relora a) with
     | Py.Ok r => r =? 1
     | Py.Raise _ => false
     end.

(** The merge-and-reset block. *)
Definition relora_reset (a : Args) (ga : Z) (st : LoopState) : Flow :=
  if can_reset a ga (local_step st) then
    match Py.mod_opt (update_step st) (relora a) with
    | Py.Raise e => Raised e st
    | Py.Ok r =>
        if r =? 1 then
          let n_lora_restarts := n_lora_restarts st + 1 in
          let events := EvReset (update_step st) :: events st in
          let merged (m : Model) :=
            mkLoopState (global_step st) (local_step st) (update_step st)
              (tokens_seen st) (tokens_seen_before st) n_lora_restarts
              m (optimizer_reset (optimizer st)) (scheduler st) (disk st) events in
          if String.eqb (distributed_type a) "ddp"
          then Proceed (merged (merge_and_reinit (model st)))
          else if String.eqb (distributed_type a) "fsdp"
          then Proceed (merged (merge_and_reinit_functional (model st)))
          else Raised Py.ValueError
                 (mkLoopState (global_step st) (local_step st) (update_step st)
                    (tokens_seen st) (tokens_seen_before st) n_lora_restarts
                    (model st) (optimizer st) (scheduler st) (disk st) events)
        else Proceed st
    end
  else Proceed st.

(** The periodic evaluation, with the default token budget. *)
Definition periodic_eval (a : Args) (env : Env) (st : LoopState) : Flow :=
  match Py.mod_ (update_step st) (eval_every a) with
  | Py.Raise e => Raised e st
  | Py.Ok r =>
      if r =? 0 then
        match evaluate_model (global_rank env) (eval_loaders env) (model st) 10000000 with
        | Py.Raise e => Raised e st
        | Py.Ok _ =>
            Proceed (mkLoopState (global_step st) (local_step st) (update_step st)
                       (tokens_seen st) (tokens_seen_before st) (n_lora_restarts st)
                       (model st) (optimizer st) (scheduler st) (disk st)
                       (EvEval (update_step st) :: events st))
        end
      else Proceed st
  end.

(** [tokens_seen_before = tokens_seen] *)
Definition close_update (st : LoopState) : LoopState :=
  mkLoopState (global_step st) (local_step st) (update_step st)
    (tokens_seen st) (tokens_seen st) (n_lora_restarts st)
    (model st) (optimizer st) (scheduler st) (disk st) (events st).

(** The part of the body that only runs on an update step. *)
Definition update_phase (a : Args) (env : Env) (ga : Z) (st : LoopState) : Flow :=
  then_ (periodic_save a ga (optimizer_update st)) (fun st =>
  then_ (relora_reset a ga st) (fun st =>
  then_ (periodic_eval a env st) (fun st =>
  Proceed (close_update st)))).

(** One pass through the body of [for batch in train_loader]. *)
Definition train_iteration (a : Args) (env : Env) (st : LoopState) (batch : Batch) : Flow :=
  then_ (micro_step a env st batch) (fun st =>
  match gradient_accumulation a with
  | None => Raised Py.TypeError st
  | Some ga => update_phase a env ga st
  end).

(** What a pass that computed a loss on [batch] changed: [du] is the
    number of optimizer updates it made and [due] tells whether the
    merge-and-reset fired. *)
Definition advanced (env : Env) (st st' : LoopState) (batch : Batch)
    (du : Z) (due : bool) : Prop :=
  global_step st' = global_step st + 1 /\
  local_step st' = local_step st + 1 /\
  update_step st' = update_step st + du /\
  tokens_seen st' = tokens_seen st + numel batch * world_size env /\
  n_lora_restarts st' = n_lora_restarts st + (if due then 1 else 0) /\
  forwards (events st') = (global_step st + 1) :: forwards (events st) /\
  updates (events st')
    = (if du =? 1 then [update_step st + 1] else []) ++ updates (events st) /\
  resets (events st')
    = (if due then [update_step st + 1] else []) ++ resets (events st).

(** The resets traced so far lie on the schedule of period [interval]:
    each follows an update to a step congruent to 1, no step is reset
    twice, and [n_lora_restarts] counts them. *)
Definition resets_on_schedule (interval : Z) (st : LoopState) : Prop :=
  (forall u, In u (resets (events st)) ->
             u mod interval = 1 /\ In u (updates (events st))) /\
  (forall u, In u (updates (events st)) -> u <= update_step st) /\
  List.NoDup (resets (events st)) /\
  n_lora_restarts st = Z.of_nat (length (resets (events st))).

(** No step of the schedule beyond the first period has been missed. *)
Definition resets_complete (interval : Z) (st : LoopState) : Prop :=
  update_step st <= local_step st /\
  forall u, In u (updates (events st)) -> interval < u -> u mod interval = 1 ->
            In u (resets (events st)).

(** Micro-steps still to come before the loop breaks. *)
Definition remaining (a : Args) (ga : Z) (st : LoopState) : Z :=
  if num_training_steps a <=? update_step st then 0
  else ga * (num_training_steps a - update_step st) - global_step st mod ga.


(** How the loop is left. *)
Inductive Outcome :=
| Exhausted                 (* the [else] branch of the [for] *)
| Stopped                   (* [break]: the target number of updates is reached *)
| Failed (e : Py.exn).

Fixpoint train_loop (a : Args) (env : Env) (st : LoopState) (train_loader : list Batch)
  : Outcome * LoopState :=
  match train_loader with
  | [] => (Exhausted, st)
  | batch :: rest =>
      match train_iteration a env st batch with
      | Proceed st' | Continue st' => train_loop a env st' rest
      | Break st' => (Stopped, st')
      | Raised e st' => (Failed e, st')
      end
  end.

(** The checkpoint after the loop. *)
Definition final_save (a : Args) (st : LoopState) : Py.result LoopState :=
  let current_model_directory := model_directory a (update_step st) in
  if exists_ (disk st) current_model_directory then Py.Ok st
  else
    let ts := training_state_checkpoint st in
    do d <- save_model (disk st) (model st) (optimizer st) (scheduler st) ts
              (distributed_type a) (save_dir a);
    Py.Ok (mkLoopState (global_step st) (local_step st) (update_step st)
             (tokens_seen st) (tokens_seen_before st) (n_lora_restarts st)
             (model st) (optimizer st) (scheduler st) d
             (EvSave (save_dir a) ts :: events st)).

(** ** Start-up and resume *)

(** [training_utils.get_last_training_state(save_dir)]: the directory of
    the last checkpoint found under [save_dir], if any. *)
Variable get_last_training_state : gmap string File -> string -> option string.

(** The block that inspects an existing [save_dir], and the creation of
    the directory with its [training_config.yaml].  The second component
    is the local variable [resume_from] of [main]: it is bound only when
    the directory was there. *)
Definition prepare_save_dir (a : Args) (d : gmap string File)
  : Py.result (Args * option (option string) * gmap string File) :=
  do bound <-
    (if exists_ d (save_dir a) then
       if negb (autoresume a) then Py.Raise Py.ValueError
       else
         let resume_from := get_last_training_state d (save_dir a) in
         Py.Ok (set_resume_from a resume_from, Some resume_from)
     else Py.Ok (a, None));
  let '(a, local_resume_from) := bound in
  do d <- makedirs d (save_dir a);
  Py.Ok (a, local_resume_from,
         <[Path.join (save_dir a) "training_config.yaml"
            := FTrainingConfig (batch_size a)]> d).

(** Truth value of [args.resume_from] in [if args.resume_from:]. *)
Definition truthy (s : option string) : bool :=
  match s with
  | Some s => negb (String.eqb s "")
  | None => false
  end.

(** The counters at the start, with the weights given to [main]. *)
Definition initial_state (m : Model) (o : Optimizer) (s : Scheduler)
    (d : gmap string File) : LoopState :=
  mkLoopState 0 0 0 0 0 0 m o s d [].

(** Loading [args.warmed_up_model]: weights, and the step and token
    counters when a training state lies next to them. *)
Definition load_warmed_up_model (a : Args) (st : LoopState) : Py.result LoopState :=
  match warmed_up_model a with
  | None => Py.Ok st
  | Some dir =>
      match disk st !! Path.join dir "pytorch_model.bin" with
      | Some (FWeights w) =>
          match disk st !! Path.join dir "training_state.json" with
          | Some (FTrainingState _old_state) =>
              Py.Ok (mkLoopState (ck_global_step _old_state) (local_step st)
                       (ck_update_step _old_state) (ck_tokens_seen _old_state)
                       (ck_tokens_seen_before _old_state) (n_lora_restarts st)
                       w (optimizer st) (scheduler st) (disk st) (events st))
          | _ =>
              Py.Ok (mkLoopState (global_step st) (local_step st) (update_step st)
                       (tokens_seen st) (tokens_seen_before st) (n_lora_restarts st)
                       w (optimizer st) (scheduler st) (disk st) (events st))
          end
      | _ => Py.Raise Py.FileNotFoundError
      end
  end.

(** The first resume block: weights and [training_state.json]. *)
Definition resume_training_state (a : Args) (st : LoopState) : Py.result LoopState :=
  match resume_from a with
  | Some dir =>
      if truthy (resume_from a) then
        if negb (use_peft a) then Py.Raise Py.AttributeError   (* model.wrapped_model *)
        else
          match disk st !! Path.join dir "pytorch_model.bin" with
          | Some (FWeights w) =>
              match disk st !! Path.join dir "training_state.json" with
              | Some (FTrainingState _old_state) =>
                  Py.Ok (mkLoopState (ck_global_step _old_state) (local_step st)
                           (ck_update_step _old_state) (ck_tokens_seen _old_state)
                           (ck_tokens_seen_before _old_state)
                           (ck_n_lora_restarts _old_state)
                           w (optimizer st) (scheduler st) (disk st) (events st))
              | _ => Py.Raise Py.FileNotFoundError
              end
          | _ => Py.Raise Py.FileNotFoundError
          end
      else Py.Ok st
  | None => Py.Ok st
  end.

(** [for _ in range(update_step): scheduler.step()] on the new scheduler. *)
Fixpoint replay_scheduler (n : nat) (s : Scheduler) (o : Optimizer)
  : Scheduler * Optimizer :=
  match n with
  | O => (s, o)
  | S n' => let '(s, o) := scheduler_step s o in replay_scheduler n' s o
  end.

(** The second resume block: the scheduler is replayed, then optimizer,
    scheduler and the two step counters are taken from [optimizer.pt];
    the batch size is compared with the one recorded next to the
    checkpoint. *)
Definition resume_optimizer (a : Args) (local_resume_from : option (option string))
    (st : LoopState) : Py.result LoopState :=
  match resume_from a with
  | Some _optimizer_dir =>
      if truthy (resume_from a) then
        let '(s, o) := replay_scheduler (Z.to_nat (update_step st))
                         (scheduler st) (optimizer st) in
        match disk st !! Path.join _optimizer_dir "optimizer.pt" with
        | Some (FOptimizerPt optimizer_checkpoint) =>
            let st' :=
              mkLoopState (oc_global_step optimizer_checkpoint) (local_step st)
                (oc_update_step optimizer_checkpoint) (tokens_seen st)
                (tokens_seen_before st) (n_lora_restarts st) (model st)
                (oc_optimizer optimizer_checkpoint)
                (oc_scheduler optimizer_checkpoint) (disk st) (events st) in
            match local_resume_from with
            | None => Py.Raise Py.UnboundLocalError
            | Some None => Py.Raise Py.TypeError       (* os.path.join(None, ...) *)
            | Some (Some resume_from) =>
                match disk st !! Path.join resume_from "training_config.yaml" with
                | Some (FTrainingConfig old_batch_size) =>
                    if bool_decide (batch_size a = old_batch_size)
                    then Py.Ok st'
                    else Py.Raise Py.RuntimeError
                | _ => Py.Ok st'
                end
            end
        | _ => Py.Raise Py.FileNotFoundError
        end
      else Py.Ok st
  | None => Py.Ok st
  end.





(** [SkipDataLoader(..., skip_batches=global_step)] *)
Definition skip_batches (dataset : list Batch) (global_step : Z) : list Batch :=
  skipn (Z.to_nat global_step) dataset.

(** How a run of [main] ends: by an exception, with what had been traced
    and written until then, or by reaching the end of the script. *)
Inductive Run :=
| Crashed (e : Py.exn) (events : list Event) (d : gmap string File)
| Finished (o : Outcome) (st : LoopState).

(** The distributed wrapping of the model: the fsdp branch is closed. *)
Definition distributed_wrapping (a : Args) : Py.result unit :=
  if String.eqb (distributed_type a) "fsdp" then Py.Raise Py.RuntimeError
  else Py.Ok tt.

(** The part of [main] that follows the training loop: the checkpoint
    after the loop, the release of [loss], [optimizer] and [scheduler],
    and the final evaluations.  [loss] is a local variable of [main] that
    only the forward pass of the loop binds, so releasing it raises when
    the trace of the process holds no forward pass. *)
Definition after_training (a : Args) (env : Env) (out : Outcome) (st : LoopState) : Run :=
  match final_save a st with
  | Py.Raise e => Crashed e (events st) (disk st)
  | Py.Ok st =>
      match forwards (events st) with
      | [] => Crashed Py.UnboundLocalError (events st) (disk st)
      | _ :: _ =>
          match (do _ <- evaluate_model (global_rank env) (eval_loaders env)
                           (model st) 100000000;
                 match test_loaders env with
                 | Some loaders =>
                     evaluate_model (global_rank env) loaders (model st) (-1)
                 | None => Py.Ok (F32.zero, F32.zero)
                 end) with
          | Py.Raise e => Crashed e (events st) (disk st)
          | Py.Ok _ => Finished out st
          end
      end
  end.

(** [main], from the batch-size check to the final evaluations.
    [m], [o] and [s] are the model, optimizer and scheduler as the script
    builds them; [dataset] is the training data of this rank.  The model
    is wrapped between the two resume blocks. *)
Definition main (a : Args) (env : Env) (d : gmap string File)
    (m : Model) (o : Optimizer) (s : Scheduler) (dataset : list Batch) : Run :=
  match check_batch_sizes a (world_size env) with
  | Py.Raise e => Crashed e [] d
  | Py.Ok a =>
  match apply_max_train_tokens a with
  | Py.Raise e => Crashed e [] d
  | Py.Ok a =>
  match prepare_save_dir a d with
  | Py.Raise e => Crashed e [] d
  | Py.Ok (a, local_resume_from, d) =>
  match (do st <- load_warmed_up_model a (initial_state m o s d);
         do st <- resume_training_state a st;
         do _wrapped <- distributed_wrapping a;
         resume_optimizer a local_resume_from st) with
  | Py.Raise e => Crashed e [] d
  | Py.Ok st =>
  match train_loop a env st (skip_batches dataset (global_step st)) with
  | (Failed e, st) => Crashed e (events st) (disk st)
  | (o, st) => after_training a env o st
  end end end end end.

End Training.

(** ** A small collaborator set for concrete runs

    The model counts adapter merges, the optimizer counts the updates made
    since its moments were last reset, the scheduler counts its steps, and a
    batch carries its token count and the loss the forward pass returns on
    it. *)

Module Sim.

Record batch := mkBatch { tokens : Z; loss : spec_float }.

(** Modelled from the spec: [training_utils.optimizer_reset] and the
    adapter's [merge_and_reinit], which are not among the sources.  A full
    reset clears the moments of the adapter parameters, here the count of
    updates the optimizer has made since its last reset; a merge is counted
    by the model.  Forward and backward passes and the steps of optimizer
    and scheduler belong to the external libraries and are reduced to
    counters. *)
#[export] Instance collaborators : Collaborators := {|
  Model := Z;
  Optimizer := Z;
  Scheduler := Z;
  Batch := batch;
  numel := tokens;
  forward_loss := fun _ b => loss b;
  backward := fun _ m _ => m;
  optimizer_step := fun o m => (o + 1, m);
  scheduler_step := fun s o => (s + 1, o);
  zero_grad := fun m => m;
  merge_and_reinit := fun m => m + 1;
  merge_and_reinit_functional := fun m => m + 1;
  optimizer_reset := fun _ => 0;
|}.

Definition one : spec_float := F32.of_Z 1.
Definition inf : spec_float := S754_infinity false.

(** a batch of [n] tokens with loss 1.0 *)
Definition plain (n : Z) : batch := mkBatch n one.

Definition env (ranks : Z) : Env :=
  mkEnv ranks 0 (repeat [plain 128] (Z.to_nat ranks)) None.

Definition args (ga steps : Z) (interval : option Z) : Args :=
  {| batch_size := Some 1;
     gradient_accumulation := Some ga;
     total_batch_size := Some ga;
     max_train_tokens := None;
     num_training_steps := steps;
     relora := interval;
     resume_from := None;
     warmed_up_model := None;
     use_peft := true;
     autoresume := false;
     save_every := 10000;
     eval_every := 1000;
     save_dir := "ckpt/run";
     distributed_type := "ddp" |}.

Definition fresh : LoopState := initial_state 0 0 0 ∅.

(** no earlier checkpoint is ever found *)
Definition no_last_state : gmap string File -> string -> option string :=
  fun _ _ => None.

(** A warmed-up model saved after 100 updates of 4 micro-steps each. *)
Definition warm_disk : gmap string File :=
  <["warm/training_state.json" := FTrainingState (mkTrainingStateCheckpoint 400 100 51200 51200 0)]>
    (<["warm/pytorch_model.bin" := FWeights 0]> ∅).

(** A run resumed after two updates of two micro-steps, reset disabled. *)
Definition resumed_args : Args :=
  set_resume_from (args 2 10 None) (Some "ckpt/run/model_2").

Definition resumed : LoopState := mkLoopState 4 0 2 512 512 0 0 2 2 ∅ [].

(** A batch on which the forward pass returns an infinite loss. *)
Definition diverged : batch := mkBatch 128 inf.

(** Evaluation data of two ranks: 80000 batches of 64 tokens on each, so
    that the first batches add up to 128 tokens. *)
Definition eval_data : list (list batch) :=
  [repeat (plain 64) (Z.to_nat 80000); repeat (plain 64) (Z.to_nat 80000)].

(** The state a new process starts from on disk [d]. *)
Definition restart (d : gmap string File) : LoopState := initial_state 0 0 0 d.

(** The state in which a run of two updates of two micro-steps leaves the
    loop. *)
Definition trained : LoopState :=
  mkLoopState 5 5 2 512 512 0 0 2 2 ∅
    [EvOptimizerStep 2; EvForward 4; EvForward 3;
     EvOptimizerStep 1; EvForward 2; EvForward 1].


(** Two more updates on top of the warmed-up model, reset interval 100. *)
Definition warm_args : Args :=
  set_warmed_up_model (args 4 102 (Some 100)) (Some "warm").

End Sim.

(** ** Checkpoints along a run *)

Section CheckpointTrace.

Context `{C : Collaborators}.

(** Nothing was written between [st] and [st']. *)
Definition no_checkpoint (st st' : LoopState) : Prop :=
  disk st' = disk st /\ saves (events st') = saves (events st).

(** Between [st] and [st'] the update phase entered by the state [up]
    wrote its periodic checkpoint, and nothing else was written. *)
Definition checkpointed (a : Args) (ga : Z) (st up st' : LoopState) : Prop :=
  let dir := model_directory a (update_step up) in
  let ts := training_state_checkpoint up in
  ga < local_step up /\
  update_step up mod save_every a = 0 /\
  save_model (disk st) (model up) (optimizer up) (scheduler up) ts
    (distributed_type a) dir = Py.Ok (disk st') /\
  saves (events st') = (dir, ts) :: saves (events st).

(** What holds of an entry of the checkpoint trace that a periodic save
    made after update step [lo], on a run that has come to [st']. *)
Definition periodic_entry (a : Args) (lo : Z) (st' : LoopState)
    (entry : string * TrainingStateCheckpoint) : Prop :=
  let ts := snd entry in
  fst entry = model_directory a (ck_update_step ts) /\
  ck_update_step ts mod save_every a = 0 /\
  lo < ck_update_step ts <= update_step st' /\
  (exists ga, gradient_accumulation a = Some ga /\ ck_global_step ts mod ga = 0) /\
  distributed_type a = "ddp" /\
  exists_ (disk st') (fst entry) = true.

(** Every path of [d] is still there in [d']. *)
Definition keeps_paths (d d' : gmap string File) : Prop :=
  forall p, exists_ d p = true -> exists_ d' p = true.

(** The batches the loop went through once it is left with [out]: the one
    on which it breaks is counted by [global_step] though nothing is
    computed on it. *)
Definition micro_steps_made (out : Outcome) (st' : LoopState) : Z :=
  match out with
  | Stopped => global_step st' - 1
  | _ => global_step st'
  end.

End CheckpointTrace.

(** ** Paths without a directory part *)

(** Whether a separator occurs in the path. *)
Fixpoint has_slash (p : string) : bool :=
  match p with
  | EmptyString => false
  | String c p' => Path.is_slash c || has_slash p'
  end.

(** ** Start-up arguments *)

(** The arguments [a'] differ from [a] at most in the two fields that the
    start-up arithmetic assigns. *)
Definition same_run (a a' : Args) : Prop :=
  batch_size a' = batch_size a /\
  total_batch_size a' = total_batch_size a /\
  max_train_tokens a' = max_train_tokens a /\
  relora a' = relora a /\
  resume_from a' = resume_from a /\
  warmed_up_model a' = warmed_up_model a /\
  use_peft a' = use_peft a /\
  autoresume a' = autoresume a /\
  save_every a' = save_every a /\
  eval_every a' = eval_every a /\
  save_dir a' = save_dir a /\
  distributed_type a' = distributed_type a.

(** ** More concrete runs *)

Module Cases.

#[local] Existing Instance Sim.collaborators.

(** Run parameters with one example per batch and process, as [Sim.args],
    with the periods, the save directory, the distributed type and the
    autoresume switch left open. *)
Definition run (ga steps : Z) (interval : option Z) (save eval : Z)
    (dir dt : string) (auto : bool) : Args :=
  {| batch_size := Some 1;
     gradient_accumulation := Some ga;
     total_batch_size := Some ga;
     max_train_tokens := None;
     num_training_steps := steps;
     relora := interval;
     resume_from := None;
     warmed_up_model := None;
     use_peft := true;
     autoresume := auto;
     save_every := save;
     eval_every := eval;
     save_dir := dir;
     distributed_type := dt |}.

(** Four updates of one micro-step, a checkpoint every second update. *)
Definition saving (dt : string) : Args := run 1 4 None 2 1000 "ckpt/run" dt false.







(** The counters a process starts from when it was handed the training
    state of an end-of-training checkpoint: ten updates of four
    micro-steps, and the batch on which the loop broke. *)
Definition unaligned : LoopState := mkLoopState 41 0 10 5120 5120 0 0 10 10 ∅ [].

(** Before the fourth update of a run that checkpoints every fourth update
    and resets with period three. *)
Definition before_fourth_update : LoopState :=
  mkLoopState 4 4 3 512 384 0 0 3 3 ∅ [].

(** A process that starts with the counters of a run of two updates that
    reached its target. *)
Definition at_target : LoopState := mkLoopState 5 0 2 512 512 0 0 2 2 ∅ [].

(** A process resumed at update step 100 of a run with two micro-steps per
    update. *)
Definition resumed_at_100 : LoopState :=
  mkLoopState 200 0 100 25600 25600 0 0 100 100 ∅ [].

(** The disk once a checkpoint of a run at update step 2 is written into
    [dir] on disk [d]. *)
Definition checkpoint : TrainingStateCheckpoint := mkTrainingStateCheckpoint 4 2 512 384 1.

Definition saved_on (d : gmap string File) (dir : string) : gmap string File :=
  match save_model_ddp d 5 2 2 checkpoint dir with
  | Py.Ok d' => d'
  | Py.Raise _ => d
  end.

(** A save directory left by an earlier run with batch size 1. *)
Definition old_run : gmap string File :=
  <["ckpt/run/training_config.yaml" := FTrainingConfig (Some 1)]>
    (<["ckpt/run" := FDir]> ∅).

(** A rank whose second evaluation batch holds no tokens. *)
Definition eval_with_empty_batch : list (list Sim.batch) :=
  [[Sim.plain 64; Sim.mkBatch 0 Sim.one; Sim.plain 64]].

(** Two ranks with three and one evaluation batches of 64 tokens. *)
Definition eval_uneven : list (list Sim.batch) :=
  [[Sim.plain 64; Sim.plain 64; Sim.plain 64]; [Sim.plain 64]].

End Cases.


(** * Properties *)

(** ** Python arithmetic *)

Lemma mod_ok (a b r : Z) : Py.mod_ a b = Py.Ok r <-> b <> 0 /\ r = a mod b.
Proof.
  unfold Py.mod_. destruct (Z.eqb_spec b 0); split; intros H.
  - discriminate.
  - destruct H; contradiction.
  - injection H as <-. auto.
  - destruct H as [_ ->]. reflexivity.
Qed.

Lemma mod_raise (a b : Z) (e : Py.exn) :
  Py.mod_ a b = Py.Raise e <-> b = 0 /\ e = Py.ZeroDivisionError.
Proof.
  unfold Py.mod_. destruct (Z.eqb_spec b 0); split; intros H.
  - injection H as <-. auto.
  - destruct H as [_ ->]. reflexivity.
  - discriminate.
  - destruct H; contradiction.
Qed.

Section LoopFacts.

Context `{C : Collaborators}.
Variables (a : Args) (env : Env).

(** ** One micro-step *)

Lemma micro_step_break st batch st' :
  micro_step a env st batch = Break st' ->
  num_training_steps a <= update_step st /\
  st' = mkLoopState (global_step st + 1) (local_step st + 1) (update_step st)
          (tokens_seen st) (tokens_seen_before st) (n_lora_restarts st)
          (model st) (optimizer st) (scheduler st) (disk st) (events st).
Proof.
  unfold micro_step. intros H.
  destruct (Z.leb_spec (num_training_steps a) (update_step st)).
  - injection H as <-. auto.
  - repeat case_match; discriminate.
Qed.

Lemma micro_step_goes_on st batch st' :
  micro_step a env st batch = Proceed st' \/ micro_step a env st batch = Continue st' ->
  exists ga,
    gradient_accumulation a = Some ga /\ ga <> 0 /\
    update_step st < num_training_steps a /\
    F32.isnan (forward_loss (model st) batch) = false /\
    (micro_step a env st batch = Proceed st' <-> (global_step st + 1) mod ga = 0) /\
    st' = mkLoopState (global_step st + 1) (local_step st + 1) (update_step st)
            (tokens_seen st + numel batch * world_size env)
            (tokens_seen_before st) (n_lora_restarts st)
            (backward ga (model st) batch) (optimizer st) (scheduler st) (disk st)
            (EvForward (global_step st + 1) :: events st).
Proof.
  unfold micro_step.
  destruct (Z.leb_spec (num_training_steps a) (update_step st)) as [|Hlt];
    [intros [E|E]; discriminate|].
  destruct (F32.isnan _) eqn:Hnan; [intros [E|E]; discriminate|].
  destruct (gradient_accumulation a) as [ga|]; [|intros [E|E]; discriminate].
  destruct (Py.mod_ _ ga) as [r|e] eqn:Hmod; [|intros [E|E]; discriminate].
  apply mod_ok in Hmod as [Hga ->].
  intros H. exists ga.
  destruct (Z.eqb_spec ((global_step st + 1) mod ga) 0) as [Hz|Hz];
    destruct H as [H|H]; try discriminate; injection H as <-;
    repeat split; auto; intros; try discriminate; try contradiction.
Qed.

Lemma micro_step_raised st batch e st' :
  micro_step a env st batch = Raised e st' ->
  update_step st < num_training_steps a /\
  global_step st' = global_step st + 1 /\
  local_step st' = local_step st + 1 /\
  update_step st' = update_step st /\
  tokens_seen st' = tokens_seen st + numel batch * world_size env /\
  n_lora_restarts st' = n_lora_restarts st /\
  events st' = EvForward (global_step st + 1) :: events st /\
  (F32.isnan (forward_loss (model st) batch) = true ->
   e = Py.AssertionError "Loss is nan").
Proof.
  unfold micro_step.
  destruct (Z.leb_spec (num_training_steps a) (update_step st)) as [|Hlt];
    [discriminate|].
  destruct (F32.isnan _) eqn:Hnan.
  { intros H; injection H as <- <-. repeat split; auto. }
  destruct (gradient_accumulation a) as [ga|].
  - destruct (Py.mod_ _ ga) as [r|e'] eqn:Hmod.
    + destruct (r =? 0); discriminate.
    + intros H; injection H as <- <-. repeat split; auto; discriminate.
  - intros H; injection H as <- <-. repeat split; auto; discriminate.
Qed.

Lemma micro_step_nan st batch :
  update_step st < num_training_steps a ->
  F32.isnan (forward_loss (model st) batch) = true ->
  exists st', micro_step a env st batch = Raised (Py.AssertionError "Loss is nan") st'.
Proof.
  intros Hlt Hnan. unfold micro_step.
  destruct (Z.leb_spec (num_training_steps a) (update_step st)); [lia|].
  rewrite Hnan. eauto.
Qed.

(** ** The update phase *)

Lemma periodic_save_proceed ga st st' :
  periodic_save a ga st = Proceed st' ->
  st' = st \/
  exists d,
    ga < local_step st /\ update_step st mod save_every a = 0 /\
    save_model (disk st) (model st) (optimizer st) (scheduler st)
      (training_state_checkpoint st) (distributed_type a)
      (model_directory a (update_step st)) = Py.Ok d /\
    st' = mkLoopState (global_step st) (local_step st) (update_step st)
            (tokens_seen st) (tokens_seen_before st) (n_lora_restarts st)
            (model st) (optimizer st) (scheduler st) d
            (EvSave (model_directory a (update_step st))
               (training_state_checkpoint st) :: events st).
Proof.
  unfold periodic_save. intros H.
  destruct (Z.ltb_spec ga (local_step st)); [|injection H; auto].
  destruct (Py.mod_ _ _) as [r|] eqn:Hmod; [|discriminate].
  apply mod_ok in Hmod as [_ ->].
  destruct (Z.eqb_spec (update_step st mod save_every a) 0); [|injection H; auto].
  destruct (save_model _ _ _ _ _ _ _) as [d|] eqn:Hsave; [|discriminate].
  injection H as <-. right. exists d. auto.
Qed.

Lemma periodic_save_raised ga st e st' :
  periodic_save a ga st = Raised e st' -> st' = st /\ ga < local_step st.
Proof.
  unfold periodic_save. intros H.
  destruct (Z.ltb_spec ga (local_step st)); [|discriminate].
  repeat case_match; simplify_eq; auto.
Qed.

Lemma relora_reset_proceed ga st st' :
  relora_reset a ga st = Proceed st' ->
  st' = if reset_due a ga (local_step st) (update_step st)
        then mkLoopState (global_step st) (local_step st) (update_step st)
               (tokens_seen st) (tokens_seen_before st) (n_lora_restarts st + 1)
               (if String.eqb (distributed_type a) "ddp"
                then merge_and_reinit (model st)
                else merge_and_reinit_functional (model st))
               (optimizer_reset (optimizer st)) (scheduler st) (disk st)
               (EvReset (update_step st) :: events st)
        else st.
Proof.
  unfold relora_reset, reset_due. intros H.
  destruct (can_reset a ga (local_step st)); simpl; [|congruence].
  destruct (Py.mod_opt _ _) as [r|]; [|discriminate].
  destruct (r =? 1); [|congruence].
  repeat case_match; simplify_eq; reflexivity.
Qed.

Lemma relora_reset_raised ga st e st' :
  relora_reset a ga st = Raised e st' ->
  can_reset a ga (local_step st) = true /\
  (st' = st /\ Py.mod_opt (update_step st) (relora a) = Py.Raise e
   \/ reset_due a ga (local_step st) (update_step st) = true /\ e = Py.ValueError /\
      st' = mkLoopState (global_step st) (local_step st) (update_step st)
              (tokens_seen st) (tokens_seen_before st) (n_lora_restarts st + 1)
              (model st) (optimizer st) (scheduler st) (disk st)
              (EvReset (update_step st) :: events st)).
Proof.
  unfold relora_reset, reset_due. intros H.
  destruct (can_reset a ga (local_step st)); simpl; [|discriminate].
  destruct (Py.mod_opt _ _) as [r|]; [|injection H as <- <-; auto].
  destruct (r =? 1); [|discriminate].
  repeat case_match; simplify_eq; auto.
Qed.

Lemma periodic_eval_proceed st st' :
  periodic_eval a env st = Proceed st' ->
  st' = st \/
  st' = mkLoopState (global_step st) (local_step st) (update_step st)
          (tokens_seen st) (tokens_seen_before st) (n_lora_restarts st)
          (model st) (optimizer st) (scheduler st) (disk st)
          (EvEval (update_step st) :: events st).
Proof.
  unfold periodic_eval. intros H. repeat case_match; simplify_eq; auto.
Qed.

Lemma periodic_eval_raised st e st' :
  periodic_eval a env st = Raised e st' -> st' = st.
Proof.
  unfold periodic_eval. intros H. repeat case_match; simplify_eq; auto.
Qed.

Lemma update_phase_proceed ga st st' :
  update_phase a env ga st = Proceed st' ->
  let due := reset_due a ga (local_step st) (update_step st + 1) in
  global_step st' = global_step st /\
  local_step st' = local_step st /\
  update_step st' = update_step st + 1 /\
  tokens_seen st' = tokens_seen st /\
  tokens_seen_before st' = tokens_seen st /\
  n_lora_restarts st' = n_lora_restarts st + (if due then 1 else 0) /\
  resets (events st') = (if due then [update_step st + 1] else []) ++ resets (events st) /\
  updates (events st') = (update_step st + 1) :: updates (events st) /\
  forwards (events st') = forwards (events st).
Proof.
  unfold update_phase, then_. intros H.
  destruct (periodic_save _ _ _) as [st1| | |] eqn:H1; try discriminate.
  destruct (relora_reset _ _ _) as [st2| | |] eqn:H2; try discriminate.
  destruct (periodic_eval _ _ _) as [st3| | |] eqn:H3; try discriminate.
  injection H as <-.
  apply relora_reset_proceed in H2.
  assert (Hsame : local_step st1 = local_step st /\ update_step st1 = update_step st + 1).
  { apply periodic_save_proceed in H1 as [->|(d & _ & _ & _ & ->)]; auto. }
  destruct Hsame as [Hl Hu]. rewrite Hl, Hu in H2.
  destruct (reset_due a ga (local_step st) (update_step st + 1));
    apply periodic_save_proceed in H1 as [->|(d & _ & _ & _ & ->)];
    apply periodic_eval_proceed in H3 as [->| ->]; subst st2; simpl;
    repeat split; try reflexivity; lia.
Qed.

Lemma update_phase_raised ga st e st' :
  update_phase a env ga st = Raised e st' ->
  global_step st' = global_step st /\
  local_step st' = local_step st /\
  update_step st' = update_step st + 1 /\
  tokens_seen st' = tokens_seen st /\
  updates (events st') = (update_step st + 1) :: updates (events st) /\
  forwards (events st') = forwards (events st) /\
  exists due : bool,
    (due = true -> reset_due a ga (local_step st) (update_step st + 1) = true) /\
    n_lora_restarts st' = n_lora_restarts st + (if due then 1 else 0) /\
    resets (events st') = (if due then [update_step st + 1] else []) ++ resets (events st).
Proof.
  unfold update_phase, then_. intros H.
  destruct (periodic_save _ _ _) as [st1| | |e1 st1'] eqn:H1; try discriminate.
  2:{ injection H as <- <-. apply periodic_save_raised in H1 as [-> _].
      simpl. repeat split; auto. exists false. simpl. repeat split; auto; try lia; discriminate. }
  assert (Hsame : local_step st1 = local_step st /\ update_step st1 = update_step st + 1
                  /\ global_step st1 = global_step st /\ tokens_seen st1 = tokens_seen st
                  /\ n_lora_restarts st1 = n_lora_restarts st
                  /\ updates (events st1) = (update_step st + 1) :: updates (events st)
                  /\ forwards (events st1) = forwards (events st)
                  /\ resets (events st1) = resets (events st)).
  { apply periodic_save_proceed in H1 as [->|(d & _ & _ & _ & ->)]; simpl; repeat split; auto. }
  destruct Hsame as (Hl & Hu & Hg & Ht & Hn & Hup & Hfw & Hre).
  destruct (relora_reset _ _ _) as [st2| | |e2 st2'] eqn:H2; try discriminate.
  2:{ injection H as <- <-.
      apply relora_reset_raised in H2 as [_ [[-> _]|(Hdue & _ & ->)]].
      - repeat split; auto. exists false. simpl. repeat split; auto; try lia; discriminate.
      - simpl. repeat split; auto. exists true. rewrite Hl, Hu in Hdue. simpl.
        repeat split; auto; congruence. }
  destruct (periodic_eval _ _ _) as [st3| | |e3 st3'] eqn:H3; try discriminate.
  injection H as <- <-. apply periodic_eval_raised in H3 as ->.
  apply relora_reset_proceed in H2. rewrite Hl, Hu in H2.
  destruct (reset_due a ga (local_step st) (update_step st + 1)) eqn:Hdue;
    subst st2; simpl; repeat split; auto;
    [exists true|exists false]; simpl; repeat split; auto;
    try lia; try discriminate; congruence.
Qed.

Lemma update_phase_no_jump ga st st' :
  update_phase a env ga st <> Continue st' /\ update_phase a env ga st <> Break st'.
Proof.
  unfold update_phase, then_, periodic_save, relora_reset, periodic_eval.
  split; intros H; repeat case_match; simplify_eq.
Qed.

(** ** One pass through the loop body *)

Lemma train_iteration_spec st batch :
  match train_iteration a env st batch with
  | Break st' =>
      num_training_steps a <= update_step st /\
      st' = mkLoopState (global_step st + 1) (local_step st + 1) (update_step st)
              (tokens_seen st) (tokens_seen_before st) (n_lora_restarts st)
              (model st) (optimizer st) (scheduler st) (disk st) (events st)
  | Continue st' =>
      exists ga,
        gradient_accumulation a = Some ga /\ ga <> 0 /\
        update_step st < num_training_steps a /\
        (global_step st + 1) mod ga <> 0 /\
        advanced env st st' batch 0 false
  | Proceed st' =>
      exists ga,
        gradient_accumulation a = Some ga /\ ga <> 0 /\
        update_step st < num_training_steps a /\
        (global_step st + 1) mod ga = 0 /\
        advanced env st st' batch 1
          (reset_due a ga (local_step st + 1) (update_step st + 1))
  | Raised e st' =>
      update_step st < num_training_steps a /\
      (advanced env st st' batch 0 false \/
       exists ga due,
         gradient_accumulation a = Some ga /\ ga <> 0 /\
         (global_step st + 1) mod ga = 0 /\
         (due = true ->
          reset_due a ga (local_step st + 1) (update_step st + 1) = true) /\
         advanced env st st' batch 1 due)
  end.
Proof.
  unfold train_iteration, then_.
  destruct (micro_step a env st batch) as [st1|st1|st1|e st1] eqn:Hm.
  - destruct (micro_step_goes_on st batch st1 (or_introl Hm))
      as (ga & Hga & Hnz & Hlt & _ & [Hiff _] & Hst1).
    specialize (Hiff Hm). rewrite Hga.
    destruct (update_phase a env ga st1) as [st2|st2|st2|e st2] eqn:Hu.
    + apply update_phase_proceed in Hu. subst st1. simpl in Hu.
      destruct Hu as (? & ? & ? & ? & ? & ? & ? & ? & ?).
      exists ga. unfold advanced. simpl. repeat split; auto; congruence.
    + destruct (update_phase_no_jump ga st1 st2); contradiction.
    + destruct (update_phase_no_jump ga st1 st2); contradiction.
    + apply update_phase_raised in Hu. subst st1. simpl in Hu.
      destruct Hu as (? & ? & ? & ? & ? & ? & due & ? & ? & ?).
      split; [assumption|]. right. exists ga, due. unfold advanced. simpl.
      repeat split; auto; congruence.
  - destruct (micro_step_goes_on st batch st1 (or_intror Hm))
      as (ga & Hga & Hnz & Hlt & _ & [_ Hback] & Hst1).
    exists ga. split; [assumption|]. split; [assumption|]. split; [assumption|].
    split.
    + intros Hz. apply Hback in Hz. rewrite Hm in Hz. discriminate.
    + subst st1. unfold advanced. simpl. repeat split; auto; lia.
  - apply micro_step_break in Hm. assumption.
  - apply micro_step_raised in Hm as (? & ? & ? & ? & ? & ? & Hev & _).
    split; [assumption|]. left. unfold advanced. rewrite Hev. simpl.
    repeat split; auto; lia.
Qed.

(** ** The loop: invariants carry over *)

Lemma train_loop_inv (I B : LoopState -> Prop) (J : Py.exn -> LoopState -> Prop) :
  (forall st batch, I st ->
     match train_iteration a env st batch with
     | Proceed st' | Continue st' => I st'
     | Break st' => B st'
     | Raised e st' => J e st'
     end) ->
  forall train_loader st, I st ->
    match train_loop a env st train_loader with
    | (Exhausted, st') => I st'
    | (Stopped, st') => B st'
    | (Failed e, st') => J e st'
    end.
Proof.
  intros Hstep train_loader.
  induction train_loader as [|batch rest IH]; intros st Hst; simpl; [assumption|].
  specialize (Hstep st batch Hst).
  destruct (train_iteration a env st batch);
    [apply IH; assumption|apply IH; assumption|assumption|assumption].
Qed.

(** ** The merge-and-reset schedule *)

Lemma reset_due_mod ga l u interval :
  relora a = Some interval ->
  reset_due a ga l u = true -> u mod interval = 1.
Proof.
  unfold reset_due, Py.mod_opt. intros ->.
  destruct (can_reset a ga l); simpl; [|discriminate].
  destruct (Py.mod_ u interval) as [r|] eqn:Hmod; [|discriminate].
  apply mod_ok in Hmod as [_ ->]. apply Z.eqb_eq.
Qed.

Lemma reset_due_late ga l u interval :
  relora a = Some interval -> 0 < ga -> 0 < interval ->
  u <= l -> interval < u -> u mod interval = 1 ->
  reset_due a ga l u = true.
Proof.
  intros Hrel Hga Hint Hul Hlate Hmod. unfold reset_due, can_reset, Py.mod_opt.
  rewrite Hrel. unfold Py.mod_.
  destruct (Z.eqb_spec interval 0); [lia|]. rewrite Hmod. simpl.
  rewrite andb_true_r. apply orb_true_iff. right. apply Z.ltb_lt. nia.
Qed.

Lemma on_schedule_step interval st st' batch du due :
  relora a = Some interval ->
  (due = true -> du = 1) ->
  (due = true ->
   exists ga, reset_due a ga (local_step st + 1) (update_step st + 1) = true) ->
  (du = 0 \/ du = 1) ->
  advanced env st st' batch du due ->
  resets_on_schedule interval st -> resets_on_schedule interval st'.
Proof.
  intros Hrel Hdu Hdue Hcases (_ & _ & Hu & _ & Hn & _ & Hup & Hre) (H1 & H2 & H3 & H4).
  unfold resets_on_schedule. rewrite Hu, Hn, Hup, Hre.
  destruct due; simpl.
  - rewrite (Hdu eq_refl). simpl.
    destruct (Hdue eq_refl) as [ga Hga].
    apply (reset_due_mod _ _ _ _ Hrel) in Hga.
    repeat split.
    + destruct H as [<-|Hin]; [assumption|]. apply H1, Hin.
    + destruct H as [<-|Hin]; [left; reflexivity|]. right. apply H1, Hin.
    + intros u [<-|Hin]; [lia|]. apply H2 in Hin. lia.
    + constructor; [|assumption]. intros Hin. apply H1 in Hin as [_ Hin].
      apply H2 in Hin. lia.
    + rewrite H4. lia.
  - repeat split.
    + apply H1, H.
    + apply in_or_app. right. apply H1, H.
    + intros u Hin. apply in_app_or in Hin as [Hin|Hin].
      * destruct Hcases as [->| ->]; simpl in Hin; [contradiction|].
        destruct Hin as [<-|[]]. lia.
      * apply H2 in Hin. destruct Hcases as [->| ->]; lia.
    + assumption.
    + rewrite H4. lia.
Qed.

Lemma iteration_on_schedule interval st batch :
  relora a = Some interval ->
  resets_on_schedule interval st ->
  match train_iteration a env st batch with
  | Proceed st' | Continue st' | Break st' | Raised _ st' =>
      resets_on_schedule interval st'
  end.
Proof.
  intros Hrel Hst. pose proof (train_iteration_spec st batch) as Hspec.
  destruct (train_iteration a env st batch) as [st'|st'|st'|e st'].
  - destruct Hspec as (ga & _ & _ & _ & _ & Hadv).
    apply (on_schedule_step interval st st' batch 1
             (reset_due a ga (local_step st + 1) (update_step st + 1)) Hrel);
      eauto.
  - destruct Hspec as (ga & _ & _ & _ & _ & Hadv).
    apply (on_schedule_step interval st st' batch 0 false Hrel);
      auto; discriminate.
  - destruct Hspec as [_ ->]. exact Hst.
  - destruct Hspec as [_ [Hadv|(ga & due & _ & _ & _ & Hdue & Hadv)]].
    + apply (on_schedule_step interval st st' batch 0 false Hrel);
        auto; discriminate.
    + apply (on_schedule_step interval st st' batch 1 due Hrel); eauto.
Qed.

Lemma train_loop_on_schedule interval train_loader st :
  relora a = Some interval ->
  resets_on_schedule interval st ->
  resets_on_schedule interval (snd (train_loop a env st train_loader)).
Proof.
  intros Hrel Hst.
  pose proof (train_loop_inv (resets_on_schedule interval)
                (resets_on_schedule interval)
                (fun _ => resets_on_schedule interval)) as Hinv.
  assert (Hstep : forall st batch, resets_on_schedule interval st ->
            match train_iteration a env st batch with
            | Proceed st' | Continue st' | Break st' | Raised _ st' =>
                resets_on_schedule interval st'
            end)
    by (intros; apply iteration_on_schedule; assumption).
  specialize (Hinv Hstep train_loader st Hst).
  destruct (train_loop a env st train_loader) as [[| |e] st']; exact Hinv.
Qed.

Lemma iteration_complete interval ga st batch :
  relora a = Some interval -> gradient_accumulation a = Some ga ->
  0 < ga -> 0 < interval ->
  resets_complete interval st ->
  match train_iteration a env st batch with
  | Proceed st' | Continue st' | Break st' => resets_complete interval st'
  | Raised _ _ => True
  end.
Proof.
  intros Hrel Hga Hpos Hint [Hle Hall].
  pose proof (train_iteration_spec st batch) as Hspec.
  destruct (train_iteration a env st batch) as [st'|st'|st'|e st']; [| | |exact I].
  - destruct Hspec as (ga' & Hga' & _ & _ & _ & Hadv).
    rewrite Hga in Hga'. injection Hga' as <-.
    destruct Hadv as (_ & Hl & Hu & _ & _ & _ & Hup & Hre).
    split; [lia|]. rewrite Hup, Hre. simpl.
    intros u [<-|Hin] Hlate Hmod.
    + assert (Hdue : reset_due a ga (local_step st + 1) (update_step st + 1) = true)
        by (apply (reset_due_late ga _ _ interval); auto; lia).
      rewrite Hdue. left. reflexivity.
    + apply in_or_app. right. apply Hall; assumption.
  - destruct Hspec as (ga' & _ & _ & _ & _ & Hadv).
    destruct Hadv as (_ & Hl & Hu & _ & _ & _ & Hup & Hre).
    split; [lia|]. rewrite Hup, Hre. simpl. assumption.
  - destruct Hspec as [_ ->]. unfold resets_complete. simpl. split; [lia|assumption].
Qed.

Lemma train_loop_complete interval ga train_loader st :
  relora a = Some interval -> gradient_accumulation a = Some ga ->
  0 < ga -> 0 < interval ->
  resets_complete interval st ->
  match train_loop a env st train_loader with
  | (Failed _, _) => True
  | (_, st') => resets_complete interval st'
  end.
Proof.
  intros Hrel Hga Hpos Hint Hst.
  pose proof (train_loop_inv (resets_complete interval)
                (resets_complete interval) (fun _ _ => True)) as Hinv.
  assert (Hstep : forall st batch, resets_complete interval st ->
            match train_iteration a env st batch with
            | Proceed st' | Continue st' | Break st' => resets_complete interval st'
            | Raised _ _ => True
            end)
    by (intros; eapply iteration_complete; eassumption).
  specialize (Hinv Hstep train_loader st Hst).
  destruct (train_loop a env st train_loader) as [[| |e] st']; exact Hinv.
Qed.

End LoopFacts.

(** ** Claim C1: the merge-and-reset schedule *)

Section ResetSchedule.

Context `{C : Collaborators}.
Variables (a : Args) (env : Env).

(** C1, as amended.  On a run that starts from the initial counters with
    [relora = 100]: a merge-and-reset only ever follows an update to a
    step congruent to 1 modulo 100; unless the run is cut short by an
    exception, it follows every update to step 101, 201, 301, ...; no
    step is reset twice and [n_lora_restarts] grows by one with each
    reset. *)
Theorem reset_schedule_from_start ga m o s d train_loader out st' :
  relora a = Some 100 ->
  gradient_accumulation a = Some ga ->
  0 < ga ->
  train_loop a env (initial_state m o s d) train_loader = (out, st') ->
  (forall u, In u (resets (events st')) ->
             u mod 100 = 1 /\ In u (updates (events st'))) /\
  ((forall e, out <> Failed e) ->
   forall u, In u (updates (events st')) -> 100 < u -> u mod 100 = 1 ->
             In u (resets (events st'))) /\
  List.NoDup (resets (events st')) /\
  n_lora_restarts st' = Z.of_nat (length (resets (events st'))).
Proof.
  intros Hrel Hga Hpos Hrun.
  assert (Hsched : resets_on_schedule 100 (initial_state m o s d)).
  { unfold resets_on_schedule, initial_state. simpl.
    repeat split; try contradiction; constructor. }
  assert (Hcompl : resets_complete 100 (initial_state m o s d)).
  { unfold resets_complete, initial_state. simpl. split; [lia|contradiction]. }
  apply (train_loop_on_schedule a env 100 train_loader) in Hsched; [|assumption].
  pose proof (train_loop_complete a env 100 ga train_loader _ Hrel Hga Hpos
                ltac:(lia) Hcompl) as Hc.
  rewrite Hrun in Hsched, Hc. simpl in Hsched.
  destruct Hsched as (H1 & _ & H3 & H4).
  repeat split; try assumption; try (apply H1; assumption).
  intros Hok u Hin Hlate Hmod.
  destruct out as [| |e]; [| |exfalso; eapply Hok; reflexivity];
    destruct Hc as [_ Hall]; apply Hall; assumption.
Qed.

End ResetSchedule.

(** A run of 250 updates of 4 micro-steps: resets after updates 101 and
    201. *)
Lemma reset_schedule_from_start_witness :
  let run := train_loop (Sim.args 4 250 (Some 100)) (Sim.env 1) Sim.fresh
               (repeat (Sim.plain 128) 1100) in
  resets (events (snd run)) = [201; 101] /\
  n_lora_restarts (snd run) = 2 /\
  (forall u, In u (updates (events (snd run))) -> 100 < u -> u mod 100 = 1 ->
             In u (resets (events (snd run)))).
Proof.
  intros run.
  split; [vm_compute; reflexivity|]. split; [vm_compute; reflexivity|].
  refine (proj1 (proj2 (reset_schedule_from_start (Sim.args 4 250 (Some 100))
            (Sim.env 1) 4 0 0 0 ∅ (repeat (Sim.plain 128) 1100) (fst run) (snd run)
            eq_refl eq_refl eq_refl _)) _).
  - apply surjective_pairing.
  - vm_compute. discriminate.
Defined.

(** C1 as stated fails on a warmed-up model: update step 101 is made, two
    updates into the run, and no reset follows it. *)
Lemma reset_skipped_after_warm_up :
  relora Sim.warm_args = Some 100 /\
  match main Sim.no_last_state Sim.warm_args (Sim.env 1) Sim.warm_disk 0 0 0
          (repeat (Sim.plain 128) 420) with
  | Finished Stopped st =>
      updates (events st) = [102; 101] /\ resets (events st) = [] /\
      n_lora_restarts st = 0
  | _ => False
  end.
Proof. split; [reflexivity|]. vm_compute. repeat split; reflexivity. Qed.

(** ** Claim C2: the guard in front of the merge-and-reset *)

(** C2.  With [gradient_accumulation = 11] and [relora = 100] on a run that
    is neither resumed nor warmed up, the guard
    [local_step * gradient_accumulation > relora] is already open at the
    first update ([11 * 11 = 121]), and the reset fires at update step 1,
    after 11 micro-steps. *)
Theorem reset_after_eleven_micro_steps :
  let a := Sim.args 11 5 (Some 100) in
  let run := train_loop a (Sim.env 1) Sim.fresh (repeat (Sim.plain 128) 11) in
  resume_from a = None /\ warmed_up_model a = None /\
  fst run = Exhausted /\
  local_step (snd run) = 11 /\
  updates (events (snd run)) = [1] /\
  resets (events (snd run)) = [1] /\
  n_lora_restarts (snd run) = 1.
Proof. vm_compute. repeat split; reflexivity. Qed.

(** ** Claim C3: updates and micro-steps up to the target *)

Lemma succ_mod (g ga : Z) :
  0 < ga ->
  (g + 1) mod ga = if g mod ga =? ga - 1 then 0 else g mod ga + 1.
Proof.
  intros Hga.
  pose proof (Z.div_mod g ga ltac:(lia)) as Hdm.
  pose proof (Z.mod_pos_bound g ga Hga) as Hb.
  destruct (Z.eqb_spec (g mod ga) (ga - 1)) as [He|Hne].
  - symmetry. apply (Z.mod_unique_pos _ _ (g / ga + 1)); lia.
  - symmetry. apply (Z.mod_unique_pos _ _ (g / ga)); lia.
Qed.

Section Counting.

Context `{C : Collaborators}.
Variables (a : Args) (env : Env).



End Counting.


(** ** Checkpoint files *)

Section Checkpoints.

Context `{C : Collaborators}.

Lemma join_inj (d x y : string) : Path.join d x = Path.join d y -> x = y.
Proof.
  unfold Path.join. intros H.
  apply (String.app_inj d) in H. apply (String.app_inj "/") in H. exact H.
Qed.

(** What [save_model_ddp] leaves in the directory it is given. *)
Lemma save_model_ddp_files (d d' : gmap string File) m o s ts dir :
  save_model_ddp d m o s ts dir = Py.Ok d' ->
  d' !! Path.join dir "pytorch_model.bin" = Some (FWeights m) /\
  d' !! Path.join dir "optimizer.pt"
    = Some (FOptimizerPt (mkOptimizerCheckpoint o s (ck_update_step ts)
                            (ck_global_step ts))) /\
  d' !! Path.join dir "training_state.json" = Some (FTrainingState ts).
Proof.
  unfold save_model_ddp. intros H.
  destruct (makedirs d (Path.dirname dir)) as [d1|]; [|discriminate].
  simpl in H. destruct (makedirs d1 dir) as [d2|]; [|discriminate].
  simpl in H. injection H as <-.
  repeat split.
  - rewrite lookup_insert_ne by (intros E; apply join_inj in E; discriminate).
    rewrite lookup_insert_ne by (intros E; apply join_inj in E; discriminate).
    apply lookup_insert_eq.
  - rewrite lookup_insert_ne by (intros E; apply join_inj in E; discriminate).
    apply lookup_insert_eq.
  - apply lookup_insert_eq.
Qed.

Lemma save_model_ok (d d' : gmap string File) m o s ts dt dir :
  save_model d m o s ts dt dir = Py.Ok d' ->
  dt = "ddp" /\ save_model_ddp d m o s ts dir = Py.Ok d'.
Proof.
  unfold save_model, save_model_fsdp. intros H.
  destruct (String.eqb_spec dt "ddp"); [auto|].
  destruct (String.eqb dt "fsdp"); discriminate.
Qed.



End Checkpoints.

(** ** Claim C10: the step counter when the target is reached *)

Section BreakingBatch.

Context `{C : Collaborators}.
Variables (a : Args) (env : Env).



End BreakingBatch.



(** ** Claim C9: resuming with the reset disabled *)

Section ResumedWithoutRelora.

Context `{C : Collaborators}.
Variables (a : Args) (env : Env).

Lemma micro_step_raised_why st batch e st' :
  micro_step a env st batch = Raised e st' ->
  F32.isnan (forward_loss (model st) batch) = true /\ e = Py.AssertionError "Loss is nan"
  \/ gradient_accumulation a = None /\ e = Py.TypeError
  \/ gradient_accumulation a = Some 0 /\ e = Py.ZeroDivisionError.
Proof.
  unfold micro_step.
  destruct (Z.leb_spec (num_training_steps a) (update_step st)); [discriminate|].
  destruct (F32.isnan _) eqn:Hnan.
  { intros E; injection E as <- _. auto. }
  destruct (gradient_accumulation a) as [ga|].
  - destruct (Py.mod_ _ ga) as [r|e'] eqn:Hmod.
    + destruct (r =? 0); discriminate.
    + intros E; injection E as <- _. apply mod_raise in Hmod as [-> ->]. auto.
  - intros E; injection E as <- _. auto.
Qed.

(** With [resume_from] set and [relora] left at [None], the update phase
    of the first update after the start ends in the [TypeError] of
    [update_step % None]. *)
Lemma update_phase_resumed dir ga st :
  resume_from a = Some dir -> relora a = None ->
  local_step st <= ga ->
  update_phase a env ga st = Raised Py.TypeError (optimizer_update st).
Proof.
  intros Hres Hrel Hl. unfold update_phase, then_, periodic_save.
  change (local_step (optimizer_update st)) with (local_step st).
  destruct (Z.ltb_spec ga (local_step st)); [lia|].
  unfold relora_reset, can_reset. rewrite Hres, Hrel. reflexivity.
Qed.

Lemma train_iteration_resumed dir ga st batch :
  resume_from a = Some dir -> relora a = None ->
  gradient_accumulation a = Some ga -> 0 < ga ->
  local_step st <= global_step st mod ga ->
  match train_iteration a env st batch with
  | Proceed _ => False
  | Continue st' =>
      local_step st' <= global_step st' mod ga /\
      update_step st' = update_step st /\
      global_step st' mod ga = global_step st mod ga + 1 /\
      updates (events st') = updates (events st)
  | Break st' => updates (events st') = updates (events st)
  | Raised e st' =>
      e = Py.AssertionError "Loss is nan" /\
      F32.isnan (forward_loss (model st) batch) = true /\
      updates (events st') = updates (events st)
      \/ e = Py.TypeError /\
         (global_step st + 1) mod ga = 0 /\
         updates (events st') = (update_step st + 1) :: updates (events st)
  end.
Proof.
  intros Hres Hrel Hga Hpos Hinv.
  pose proof (Z.mod_pos_bound (global_step st) ga Hpos) as Hb.
  pose proof (succ_mod (global_step st) ga Hpos) as Hsucc.
  unfold train_iteration, then_.
  destruct (micro_step a env st batch) as [st1|st1|st1|e st1] eqn:Hm.
  - destruct (micro_step_goes_on a env st batch st1 (or_introl Hm))
      as (ga' & Hga' & _ & _ & _ & [Hiff _] & ->).
    rewrite Hga in Hga'. injection Hga' as <-. specialize (Hiff Hm).
    rewrite Hga, (update_phase_resumed dir) by (simpl; auto; lia).
    right. simpl. auto.
  - destruct (micro_step_goes_on a env st batch st1 (or_intror Hm))
      as (ga' & Hga' & _ & _ & _ & [_ Hback] & ->).
    rewrite Hga in Hga'. injection Hga' as <-. simpl.
    assert (Hnz : (global_step st + 1) mod ga <> 0).
    { intros Hz. apply Hback in Hz. rewrite Hm in Hz. discriminate. }
    destruct (Z.eqb_spec (global_step st mod ga) (ga - 1)); [contradiction|].
    repeat split; lia.
  - apply micro_step_break in Hm as [_ ->]. reflexivity.
  - pose proof (micro_step_raised_why st batch e st1 Hm) as Hwhy.
    apply micro_step_raised in Hm as (_ & _ & _ & _ & _ & _ & Hev & _).
    rewrite Hev. simpl.
    destruct Hwhy as [[Hnan ->]|[[Hnone _]|[Hzero _]]]; [auto|congruence|].
    rewrite Hga in Hzero. injection Hzero as ->. lia.
Qed.

(** C9.  In a run that is resumed ([resume_from] set) with the reset
    disabled ([relora] is [None]), no update step is ever completed: the
    first optimizer update is followed by the [TypeError] of
    [update_step % args.relora].  The loop reaches that update, and hence
    raises, as soon as the target is not yet met and the data source holds
    the micro-steps of one accumulation window with losses that are not
    NaN. *)
Theorem resumed_without_relora_raises dir ga st train_loader out st' :
  resume_from a = Some dir ->
  relora a = None ->
  gradient_accumulation a = Some ga ->
  0 < ga ->
  local_step st = 0 ->
  train_loop a env st train_loader = (out, st') ->
  (out = Failed Py.TypeError /\
   updates (events st') = (update_step st + 1) :: updates (events st)
   \/ out <> Failed Py.TypeError /\ updates (events st') = updates (events st)) /\
  (update_step st < num_training_steps a ->
   ga - global_step st mod ga <= Z.of_nat (length train_loader) ->
   (forall m batch, In batch train_loader ->
                    F32.isnan (forward_loss m batch) = false) ->
   out = Failed Py.TypeError).
Proof.
  intros Hres Hrel Hga Hpos Hl0 Hrun.
  assert (Hinv : local_step st <= global_step st mod ga).
  { rewrite Hl0. apply Z.mod_pos_bound. assumption. }
  clear Hl0. revert st Hinv Hrun.
  induction train_loader as [|batch rest IH]; intros st Hinv Hrun.
  { injection Hrun as <- <-. split; [right; split; [discriminate|reflexivity]|].
    intros _ Hlen _. simpl in Hlen.
    pose proof (Z.mod_pos_bound (global_step st) ga Hpos). lia. }
  simpl in Hrun.
  pose proof (train_iteration_resumed dir ga st batch Hres Hrel Hga Hpos Hinv) as Hit.
  pose proof (train_iteration_spec a env st batch) as Hspec.
  destruct (train_iteration a env st batch) as [st1|st1|st1|e st1]; [contradiction| | |].
  - destruct Hit as (Hinv1 & Hu1 & Hg1 & Hup1).
    destruct (IH st1 Hinv1 Hrun) as [Hupd Hreach].
    rewrite Hu1, Hup1 in Hupd. split; [exact Hupd|].
    intros Hlt Hlen Hnan. apply Hreach.
    + lia.
    + simpl length in Hlen. lia.
    + intros m b Hin. apply Hnan. right. exact Hin.
  - injection Hrun as <- <-. split; [right; split; [discriminate|exact Hit]|].
    intros Hlt. destruct Hspec as [Hge _]. lia.
  - injection Hrun as <- <-. destruct Hit as [(-> & Hnan & Hup)|(-> & Hz & Hup)].
    + split; [right; split; [discriminate|exact Hup]|].
      intros _ _ Hno. rewrite Hno in Hnan by (left; reflexivity). discriminate.
    + split; [left; auto|]. reflexivity.
Qed.

End ResumedWithoutRelora.

Lemma resumed_without_relora_raises_witness :
  let run := train_loop Sim.resumed_args (Sim.env 1) Sim.resumed
               (repeat (Sim.plain 128) 6) in
  fst run = Failed Py.TypeError /\ updates (events (snd run)) = [3].
Proof.
  intros run.
  destruct (resumed_without_relora_raises Sim.resumed_args (Sim.env 1)
              "ckpt/run/model_2" 2 Sim.resumed (repeat (Sim.plain 128) 6)
              (fst run) (snd run) eq_refl eq_refl eq_refl eq_refl eq_refl
              (surjective_pairing _)) as [Hupd Hreach].
  assert (Hout : fst run = Failed Py.TypeError).
  { apply Hreach.
    - vm_compute. reflexivity.
    - vm_compute. discriminate.
    - intros m b Hin. apply repeat_spec in Hin. rewrite Hin. reflexivity. }
  split; [exact Hout|].
  destruct Hupd as [[_ Hup]|[Hne _]]; [exact Hup|contradiction].
Defined.

(** ** Claim C4: a loss that is not a number *)

Lemma add_nan_l (y : spec_float) : F32.add S754_nan y = S754_nan.
Proof. reflexivity. Qed.

Lemma add_nan_r (x : spec_float) : F32.add x S754_nan = S754_nan.
Proof. destruct x; reflexivity. Qed.

Lemma isnan_true (x : spec_float) : F32.isnan x = true -> x = S754_nan.
Proof. destruct x; simpl; congruence. Qed.

Section NanLoss.

Context `{C : Collaborators}.

Lemma eval_batches_nan_sum m target n batches :
  forall i token_sum passes,
    match eval_batches m target n i S754_nan token_sum passes batches with
    | Py.Ok acc => F32.isnan (fst (fst acc)) = true
    | Py.Raise _ => True
    end.
Proof.
  induction batches as [|batch rest IH]; intros i token_sum passes; simpl; [reflexivity|].
  destruct (negb (target =? -1) && (n <? i)); [reflexivity|].
  destruct (0 <? numel batch); [|exact I].
  rewrite ?add_nan_l. apply IH.
Qed.

Lemma eval_batches_nan_batch m target n batches :
  forall (j : nat) batch i loss_sum token_sum passes,
    nth_error batches j = Some batch ->
    F32.isnan (forward_loss m batch) = true ->
    target = -1 \/ i + Z.of_nat j <= n ->
    match eval_batches m target n i loss_sum token_sum passes batches with
    | Py.Ok acc => F32.isnan (fst (fst acc)) = true
    | Py.Raise _ => True
    end.
Proof.
  induction batches as [|b0 rest IH]; intros j batch i loss_sum token_sum passes Hnth Hnan Hin.
  { destruct j; discriminate. }
  simpl.
  assert (Hgo : negb (target =? -1) && (n <? i) = false).
  { destruct Hin as [->|Hle]; [reflexivity|].
    apply andb_false_iff. right. apply Z.ltb_ge. lia. }
  rewrite Hgo. destruct (0 <? numel b0); [|exact I].
  destruct j as [|j]; simpl in Hnth.
  - injection Hnth as ->. apply isnan_true in Hnan. rewrite Hnan, add_nan_r.
    apply eval_batches_nan_sum.
  - apply (IH j batch); auto. destruct Hin; [auto|right; lia].
Qed.

(** C4, as amended.  A loss that is NaN is fatal.  In the training loop
    the assertion fails on the micro-step that computed it: the loop ends
    there, without an update and without looking at a further batch.  In
    the evaluation runner, a NaN loss on any batch that takes part in the
    evaluation makes [evaluate_model] raise.  (An infinite loss is not
    checked for.) *)
Theorem nan_loss_is_fatal :
  (forall (a : Args) (env : Env) st batch rest,
     update_step st < num_training_steps a ->
     F32.isnan (forward_loss (model st) batch) = true ->
     exists st',
       train_loop a env st (batch :: rest)
         = (Failed (Py.AssertionError "Loss is nan"), st') /\
       forwards (events st') = (global_step st + 1) :: forwards (events st) /\
       updates (events st') = updates (events st)) /\
  (forall rank loaders m target (j : nat) batch,
     nth_error (nth rank loaders []) j = Some batch ->
     F32.isnan (forward_loss m batch) = true ->
     (target = -1 \/
      forall n, n_eval_iters loaders target = Py.Ok n -> Z.of_nat j <= n) ->
     exists e, evaluate_model rank loaders m target = Py.Raise e).
Proof.
  split.
  - intros a env st batch rest Hlt Hnan.
    destruct (micro_step_nan a env st batch Hlt Hnan) as [st' Hm].
    exists st'. simpl. unfold train_iteration, then_. rewrite Hm.
    split; [reflexivity|].
    apply micro_step_raised in Hm as (_ & _ & _ & _ & _ & _ & Hev & _).
    rewrite Hev. simpl. auto.
  - intros rank loaders m target j batch Hnth Hnan Hin.
    unfold evaluate_model.
    assert (Hrank : exists e, eval_rank loaders m target rank = Py.Raise e).
    { unfold eval_rank.
      destruct (nth rank loaders []) as [|b0 rest] eqn:Hl.
      { destruct j; discriminate. }
      destruct (existsb is_empty_loader loaders); [simpl; eauto|].
      destruct (n_eval_iters loaders target) as [n|e] eqn:Hn; [|simpl; eauto].
      unfold Py.bind.
      pose proof (eval_batches_nan_batch m target n (b0 :: rest) j batch 0
                    F32.zero F32.zero O Hnth Hnan) as Hacc.
      destruct (eval_batches m target n 0 F32.zero F32.zero 0 (b0 :: rest))
        as [acc|e]; [|simpl; eauto].
      assert (Hnanacc : F32.isnan (fst (fst acc)) = true).
      { apply Hacc. destruct Hin as [->|Hle]; [auto|right].
        specialize (Hle n eq_refl). lia. }
      rewrite Hnanacc. eauto. }
    destruct Hrank as [e ->]. simpl. eauto.
Qed.

End NanLoss.

Lemma nan_loss_is_fatal_witness :
  let nan_batch := Sim.mkBatch 128 S754_nan in
  (exists st',
     train_loop (Sim.args 2 10 None) (Sim.env 1) Sim.fresh
       [Sim.plain 128; nan_batch; Sim.plain 128]
     = (Failed (Py.AssertionError "Loss is nan"), st')) /\
  (exists e,
     @evaluate_model Sim.collaborators 0 [[Sim.plain 128; nan_batch]] 0 10000000
     = Py.Raise e).
Proof.
  intros nan_batch. split.
  - destruct (proj1 nan_loss_is_fatal (Sim.args 2 10 None) (Sim.env 1)
                (snd (train_loop (Sim.args 2 10 None) (Sim.env 1) Sim.fresh
                        [Sim.plain 128]))
                nan_batch [Sim.plain 128]) as (st' & Hrun & _).
    + vm_compute. reflexivity.
    + reflexivity.
    + exists st'. exact Hrun.
  - apply (proj2 (@nan_loss_is_fatal Sim.collaborators) 0%nat
             [[Sim.plain 128; nan_batch]] 0 10000000 1%nat nan_batch).
    + reflexivity.
    + reflexivity.
    + right. intros n Hn. vm_compute in Hn. injection Hn as <-. lia.
Defined.

(** C4 as stated fails for an infinite loss: the training loop goes on to
    the target and the evaluation returns. *)
Lemma infinite_loss_is_not_fatal :
  F32.isfinite (Sim.loss Sim.diverged) = false /\
  (let run := train_loop (Sim.args 1 2 None) (Sim.env 1) Sim.fresh
                [Sim.diverged; Sim.plain 128; Sim.plain 128] in
   fst run = Stopped /\ updates (events (snd run)) = [2; 1]) /\
  @evaluate_model Sim.collaborators 0 [[Sim.diverged]] 0 10000000
    = Py.Ok (S754_infinity false, F32.of_Z 128).
Proof. vm_compute. repeat split; reflexivity. Qed.

(** ** Claim C5: the batch-size arithmetic at start-up *)

Lemma batch_sizes_agree_true (a : Args) (ws : Z) :
  batch_sizes_agree a ws = Py.Ok true <->
  exists ga bs total,
    gradient_accumulation a = Some ga /\ batch_size a = Some bs /\
    total_batch_size a = Some total /\ ga * bs * ws = total.
Proof.
  unfold batch_sizes_agree. split.
  - destruct (gradient_accumulation a) as [ga|]; [|discriminate].
    destruct (batch_size a) as [bs|]; [|discriminate].
    destruct (total_batch_size a) as [total|]; [|discriminate].
    intros H. injection H as H. apply Z.eqb_eq in H. eauto 10.
  - intros (ga & bs & total & -> & -> & -> & H).
    f_equal. apply Z.eqb_eq. exact H.
Qed.

Lemma check_batch_sizes_ok (a a' : Args) (ws : Z) :
  check_batch_sizes a ws = Py.Ok a' ->
  batch_sizes_agree a' ws = Py.Ok true /\
  batch_size a' = batch_size a /\ total_batch_size a' = total_batch_size a /\
  (gradient_accumulation a' = gradient_accumulation a \/
   gradient_accumulation a = None).
Proof.
  unfold check_batch_sizes. intros H.
  destruct (match total_batch_size a with Some _ => _ | None => _ end)
    as [a1|] eqn:H1; [|discriminate].
  simpl in H.
  destruct (batch_sizes_agree a1 ws) as [[|]|] eqn:Hagree; try discriminate.
  simpl in H. injection H as <-.
  split; [exact Hagree|].
  destruct (total_batch_size a) as [total|] eqn:Htotal;
    [|simpl in H1; injection H1 as <-; auto].
  destruct (gradient_accumulation a) as [ga|] eqn:Hga;
    [simpl in H1; injection H1 as <-; auto|].
  destruct (Py.mod_ total ws) as [r|]; simpl in H1; [|discriminate].
  destruct (negb (r =? 0)); [discriminate|].
  destruct (batch_size a) as [bs|] eqn:Hbs; [|discriminate].
  destruct (Py.floordiv total (bs * ws)) as [g|]; simpl in H1; [|discriminate].
  destruct (0 <? g); [|discriminate].
  injection H1 as <-. simpl. auto.
Qed.

Section Startup.

Context `{C : Collaborators}.

(** C5.  A configuration passes the start-up check only with
    [gradient_accumulation * batch_size * world_size = total_batch_size],
    the accumulation count being the given one or, when none is given, the
    one derived from the total.  A configuration whose three numbers
    violate the equality makes the check raise, and [main] then ends with
    that exception before anything is loaded, trained or written. *)
Theorem batch_sizes_checked_at_startup (a : Args) (ws : Z) :
  (forall a',
     check_batch_sizes a ws = Py.Ok a' ->
     exists ga bs total,
       gradient_accumulation a' = Some ga /\ batch_size a' = Some bs /\
       total_batch_size a' = Some total /\ ga * bs * ws = total) /\
  (forall ga bs total,
     gradient_accumulation a = Some ga -> batch_size a = Some bs ->
     total_batch_size a = Some total ->
     ga * bs * ws <> total ->
     exists e, check_batch_sizes a ws = Py.Raise e) /\
  (forall e get_last env (d : gmap string File) m o s dataset,
     world_size env = ws ->
     check_batch_sizes a ws = Py.Raise e ->
     main get_last a env d m o s dataset = Crashed e [] d).
Proof.
  split; [|split].
  - intros a' H. apply check_batch_sizes_ok in H as [H _].
    apply batch_sizes_agree_true. exact H.
  - intros ga bs total Hga Hbs Htotal Hne.
    destruct (check_batch_sizes a ws) as [a'|e] eqn:H; [|eauto].
    exfalso. apply check_batch_sizes_ok in H as (Hagree & Hb & Ht & Hg).
    apply batch_sizes_agree_true in Hagree
      as (ga' & bs' & total' & Hga' & Hbs' & Htotal' & Heq).
    destruct Hg as [Hg|Hg]; congruence.
  - intros e get_last env d m o s dataset <- H. unfold main. rewrite H. reflexivity.
Qed.

End Startup.

Lemma batch_sizes_checked_at_startup_witness :
  (exists a',
     check_batch_sizes (Sim.args 4 10 None) 1 = Py.Ok a' /\
     gradient_accumulation a' = Some 4 /\ batch_size a' = Some 1 /\
     total_batch_size a' = Some 4) /\
  (exists e,
     check_batch_sizes (Sim.args 4 10 None) 2 = Py.Raise e /\
     main Sim.no_last_state (Sim.args 4 10 None) (Sim.env 2) ∅ 0 0 0
       (repeat (Sim.plain 128) 50) = Crashed e [] ∅).
Proof.
  split.
  - exists (Sim.args 4 10 None).
    destruct (proj1 (@batch_sizes_checked_at_startup Sim.collaborators (Sim.args 4 10 None) 1)
                (Sim.args 4 10 None) eq_refl)
      as (ga & bs & total & Hga & Hbs & Htotal & _).
    repeat split; reflexivity.
  - destruct (proj1 (proj2 (@batch_sizes_checked_at_startup Sim.collaborators (Sim.args 4 10 None) 2))
                4 1 4 eq_refl eq_refl eq_refl ltac:(lia)) as [e He].
    exists e. split; [exact He|].
    apply (proj2 (proj2 (@batch_sizes_checked_at_startup Sim.collaborators (Sim.args 4 10 None) 2)));
      [reflexivity|exact He].
Defined.

(** ** Claim C6: the number of evaluation iterations *)

Section EvalIterations.

Context `{C : Collaborators}.

(** With a finite budget the loop body runs for the indices
    [0 .. n_eval_iters], as far as the data reaches. *)
Lemma eval_batches_capped m target n batches :
  target <> -1 ->
  (forall batch, In batch batches -> 0 < numel batch) ->
  forall i loss_sum token_sum passes,
    exists l t,
      eval_batches m target n i loss_sum token_sum passes batches
      = Py.Ok (l, t, (passes + Nat.min (length batches) (Z.to_nat (n + 1 - i)))%nat).
Proof.
  intros Htarget. induction batches as [|batch rest IH];
    intros Hpos i loss_sum token_sum passes; cbn [eval_batches length].
  { exists loss_sum, token_sum. apply f_equal, f_equal2; [reflexivity|].
    clear. lia. }
  destruct (Z.eqb_spec target (-1)); [contradiction|]. cbn [negb andb].
  destruct (Z.ltb_spec n i) as [Hlt|Hge].
  - exists loss_sum, token_sum. apply f_equal, f_equal2; [reflexivity|].
    clear - Hlt. generalize (length rest). intros len. lia.
  - destruct (Z.ltb_spec 0 (numel batch)) as [_|Hle].
    + destruct (IH (fun b Hb => Hpos b (or_intror Hb)) (i + 1)
                  (F32.add loss_sum (forward_loss m batch))
                  (F32.add token_sum (F32.of_Z (numel batch))) (S passes))
        as (l & t & ->).
      exists l, t. apply f_equal, f_equal2; [reflexivity|].
      clear - Hge. generalize (length rest). intros len. lia.
    + specialize (Hpos batch (or_introl eq_refl)). lia.
Qed.

(** With the budget [-1] every batch of the data source is evaluated. *)
Lemma eval_batches_unbounded m n batches :
  (forall batch, In batch batches -> 0 < numel batch) ->
  forall i loss_sum token_sum passes,
    exists l t,
      eval_batches m (-1) n i loss_sum token_sum passes batches
      = Py.Ok (l, t, (passes + length batches)%nat).
Proof.
  induction batches as [|batch rest IH];
    intros Hpos i loss_sum token_sum passes; simpl.
  { exists loss_sum, token_sum. apply f_equal, f_equal2; [reflexivity|].
    clear. lia. }
  destruct (Z.ltb_spec 0 (numel batch)) as [_|Hle].
  - destruct (IH (fun b Hb => Hpos b (or_intror Hb)) (i + 1)
                (F32.add loss_sum (forward_loss m batch))
                (F32.add token_sum (F32.of_Z (numel batch))) (S passes))
      as (l & t & ->).
    exists l, t. apply f_equal, f_equal2; [reflexivity|].
    generalize (length rest). clear. intros len. lia.
  - specialize (Hpos batch (or_introl eq_refl)). lia.
Qed.

(** The bound every rank works with comes out of the reduction and is the
    same on all of them. *)
Lemma eval_rank_bound loaders m target r acc :
  eval_rank loaders m target r = Py.Ok acc ->
  nth r loaders [] <> [] ->
  exists n,
    n_eval_iters loaders target = Py.Ok n /\
    exists l t passes,
      eval_batches m target n 0 F32.zero F32.zero O (nth r loaders [])
      = Py.Ok (l, t, passes) /\ snd acc = passes.
Proof.
  unfold eval_rank. intros H Hne.
  destruct (nth r loaders []) as [|b0 rest]; [contradiction|].
  destruct (existsb is_empty_loader loaders); [discriminate|].
  destruct (n_eval_iters loaders target) as [n|]; [|discriminate].
  exists n. split; [reflexivity|]. unfold Py.bind in H.
  destruct (eval_batches m target n 0 F32.zero F32.zero 0 (b0 :: rest))
    as [[[l t] passes]|]; [|discriminate].
  destruct (F32.isnan _); [discriminate|]. injection H as <-.
  exists l, t, passes. auto.
Qed.

End EvalIterations.

(** The two roundings of the reflected division show in the bound: with
    19604 tokens in the first batches and a budget of 100000000 tokens the
    quotient, rounded once, would be 5101. *)
Lemma n_eval_iters_rounds_twice :
  @n_eval_iters Sim.collaborators [[Sim.plain 19604]] 100000000 = Py.Ok 5100 /\
  F32.to_int (F32.div (F32.of_Z 100000000) (F32.of_Z 19604)) = Py.Ok 5101.
Proof. split; vm_compute; reflexivity. Qed.

(** C6.  With the default budget of 10,000,000 tokens and first batches
    that add up to 128 tokens over two ranks, [n_eval_iters] is
    [10000000 / 128 = 78125] on both ranks, and both ranks run the loop
    body 78126 times, for the indices 0 to 78125: one iteration more than
    the quotient. *)
Theorem evaluation_runs_one_more_iteration :
  @n_eval_iters Sim.collaborators Sim.eval_data 10000000 = Py.Ok 78125 /\
  option_map Z.of_nat
    (@eval_passes Sim.collaborators Sim.eval_data 0 10000000 0) = Some 78126 /\
  option_map Z.of_nat
    (@eval_passes Sim.collaborators Sim.eval_data 0 10000000 1) = Some 78126.
Proof. vm_compute. repeat split; reflexivity. Qed.

(** ** Claim C8: where checkpoints are written *)

(** C8.  A run of two updates with [save_dir = "ckpt/run"]: the loop is
    left at [update_step = 2], the directory [ckpt/run/model_2] is computed
    and found absent, and the checkpoint is then written into [ckpt/run]
    itself; nothing is written under [ckpt/run/model_2]. *)
Theorem end_of_training_checkpoint_in_save_dir :
  let a := Sim.args 2 2 None in
  match @main Sim.collaborators Sim.no_last_state a (Sim.env 1) ∅ 0 0 0
          (repeat (Sim.plain 128) 9) with
  | Finished Stopped st =>
      update_step st = 2 /\
      model_directory a (update_step st) = "ckpt/run/model_2" /\
      saves (events st) = [("ckpt/run", mkTrainingStateCheckpoint 5 2 512 512 0)] /\
      disk st !! "ckpt/run/pytorch_model.bin"
        = Some (@FWeights Sim.collaborators 0) /\
      disk st !! "ckpt/run/training_state.json"
        = Some (FTrainingState (mkTrainingStateCheckpoint 5 2 512 512 0)) /\
      disk st !! "ckpt/run/model_2" = None /\
      disk st !! "ckpt/run/model_2/pytorch_model.bin" = None /\
      disk st !! "ckpt/run/model_2/training_state.json" = None
  | _ => False
  end.
Proof. vm_compute. repeat split; reflexivity. Qed.

(** ** Claim C7: resuming from a checkpoint *)

Section Resume.

Context `{C : Collaborators}.





(** A resume that did not go through the branch for an existing
    [save_dir] reaches the batch-size comparison with the local variable
    [resume_from] unbound. *)
Lemma resume_without_existing_save_dir (a : Args) dir st oc :
  resume_from a = Some dir -> dir <> "" ->
  disk st !! Path.join dir "optimizer.pt" = Some (FOptimizerPt oc) ->
  resume_optimizer a None st = Py.Raise Py.UnboundLocalError.
Proof.
  intros Hres Hdir Hlook. unfold resume_optimizer. rewrite Hres. simpl.
  destruct (String.eqb_spec dir ""); [contradiction|]. simpl.
  destruct (replay_scheduler _ _ _). rewrite Hlook. reflexivity.
Qed.

End Resume.

Lemma trained_state_reached :
  train_loop (Sim.args 2 2 None) (Sim.env 1) Sim.fresh (repeat (Sim.plain 128) 9)
  = (Stopped, Sim.trained).
Proof. vm_compute. reflexivity. Qed.



(** * Further properties of the code *)

(** ** Checkpoints along a run *)

Section CheckpointFacts.

Context `{C : Collaborators}.
Variables (a : Args) (env : Env).

Lemma micro_step_no_checkpoint st batch :
  match micro_step a env st batch with
  | Proceed st' | Continue st' | Break st' | Raised _ st' => no_checkpoint st st'
  end.
Proof.
  unfold micro_step, no_checkpoint.
  destruct (num_training_steps a <=? update_step st); [simpl; auto|].
  destruct (F32.isnan _); [simpl; auto|].
  destruct (gradient_accumulation a) as [ga|]; [|simpl; auto].
  destruct (Py.mod_ _ ga) as [r|e]; [|simpl; auto].
  destruct (r =? 0); simpl; auto.
Qed.

Lemma relora_reset_no_checkpoint ga st :
  match relora_reset a ga st with
  | Proceed st' | Continue st' | Break st' | Raised _ st' => no_checkpoint st st'
  end.
Proof.
  unfold relora_reset, no_checkpoint.
  destruct (can_reset a ga (local_step st)); [|auto].
  destruct (Py.mod_opt _ _) as [r|e]; [|auto].
  destruct (r =? 1); [|auto].
  destruct (String.eqb (distributed_type a) "ddp"); [simpl; auto|].
  destruct (String.eqb (distributed_type a) "fsdp"); simpl; auto.
Qed.

Lemma periodic_eval_no_checkpoint st :
  match periodic_eval a env st with
  | Proceed st' | Continue st' | Break st' | Raised _ st' => no_checkpoint st st'
  end.
Proof.
  unfold periodic_eval, no_checkpoint.
  destruct (Py.mod_ _ _) as [r|e]; [|auto].
  destruct (r =? 0); [|auto].
  destruct (evaluate_model _ _ _ _); simpl; auto.
Qed.

Lemma periodic_save_checkpoint ga st :
  match periodic_save a ga st with
  | Proceed st' | Continue st' | Break st' | Raised _ st' =>
      no_checkpoint st st' \/ checkpointed a ga st st st'
  end.
Proof.
  unfold periodic_save, no_checkpoint, checkpointed.
  destruct (Z.ltb_spec ga (local_step st)); [|auto].
  destruct (Py.mod_ _ _) as [r|e] eqn:Hmod; [|auto].
  apply mod_ok in Hmod as [_ ->].
  destruct (Z.eqb_spec (update_step st mod save_every a) 0); [|auto].
  destruct (save_model _ _ _ _ _ _ _) as [d|e'] eqn:Hsave; [|auto].
  right. simpl. auto.
Qed.

Lemma checkpoint_then (P : LoopState -> Prop) st st1 st2 :
  (no_checkpoint st st1 \/ P st1) ->
  (forall s s', disk s' = disk s -> saves (events s') = saves (events s) -> P s -> P s') ->
  no_checkpoint st1 st2 ->
  no_checkpoint st st2 \/ P st2.
Proof.
  intros [[Hd Hs]|HP] Hcompat [Hd' Hs'].
  - left. split; congruence.
  - right. eapply Hcompat; eauto.
Qed.

Lemma checkpointed_compat ga st up s s' :
  disk s' = disk s -> saves (events s') = saves (events s) ->
  checkpointed a ga st up s -> checkpointed a ga st up s'.
Proof.
  unfold checkpointed. intros -> ->. auto.
Qed.

Lemma update_phase_checkpoint ga st :
  match update_phase a env ga st with
  | Proceed st' | Continue st' | Break st' | Raised _ st' =>
      no_checkpoint st st' \/ checkpointed a ga st (optimizer_update st) st'
  end.
Proof.
  unfold update_phase, then_.
  pose proof (periodic_save_checkpoint ga (optimizer_update st)) as H1.
  assert (Hup : forall s,
            no_checkpoint (optimizer_update st) s
            \/ checkpointed a ga (optimizer_update st) (optimizer_update st) s ->
            no_checkpoint st s \/ checkpointed a ga st (optimizer_update st) s).
  { intros s [[Hd Hs]|H]; [left; split; assumption|right; exact H]. }
  destruct (periodic_save a ga (optimizer_update st)) as [s1|s1|s1|e1 s1];
    apply Hup in H1; try exact H1.
  pose proof (relora_reset_no_checkpoint ga s1) as H2.
  assert (Hnext : forall s, no_checkpoint s1 s ->
            no_checkpoint st s \/ checkpointed a ga st (optimizer_update st) s).
  { intros s Hs. apply (checkpoint_then _ st s1 s H1); [|exact Hs].
    intros; eapply checkpointed_compat; eauto. }
  destruct (relora_reset a ga s1) as [s2|s2|s2|e2 s2]; try (apply Hnext; exact H2).
  pose proof (periodic_eval_no_checkpoint s2) as H3.
  assert (H12 : no_checkpoint s1 s2) by exact H2.
  assert (Hlast : forall s, no_checkpoint s2 s ->
            no_checkpoint st s \/ checkpointed a ga st (optimizer_update st) s).
  { intros s [Hd Hs]. apply Hnext. destruct H12. split; congruence. }
  destruct (periodic_eval a env s2) as [s3|s3|s3|e3 s3]; apply Hlast; exact H3.
Qed.

(** One pass through the body either writes nothing or writes the periodic
    checkpoint of the update it has just made. *)
Lemma train_iteration_checkpoint st batch :
  match train_iteration a env st batch with
  | Proceed st' | Raised _ st' =>
      no_checkpoint st st' \/
      exists ga up,
        gradient_accumulation a = Some ga /\
        (global_step st + 1) mod ga = 0 /\
        global_step up = global_step st + 1 /\
        local_step up = local_step st + 1 /\
        update_step up = update_step st + 1 /\
        n_lora_restarts up = n_lora_restarts st /\
        update_step st' = update_step st + 1 /\
        checkpointed a ga st up st'
  | Continue st' | Break st' => no_checkpoint st st'
  end.
Proof.
  unfold train_iteration, then_.
  pose proof (micro_step_no_checkpoint st batch) as H0.
  destruct (micro_step a env st batch) as [st1|st1|st1|e st1] eqn:Hm;
    [|exact H0|exact H0|left; exact H0].
  destruct (micro_step_goes_on a env st batch st1 (or_introl Hm))
    as (ga & Hga & Hnz & Hlt & _ & [Hiff _] & Hst1).
  specialize (Hiff Hm). rewrite Hga. cbv beta iota.
  pose proof (update_phase_checkpoint ga st1) as H1.
  assert (Hgo : forall s,
            update_step s = update_step st1 + 1 ->
            no_checkpoint st1 s \/ checkpointed a ga st1 (optimizer_update st1) s ->
            no_checkpoint st s \/
            exists ga up,
              gradient_accumulation a = Some ga /\
              (global_step st + 1) mod ga = 0 /\
              global_step up = global_step st + 1 /\
              local_step up = local_step st + 1 /\
              update_step up = update_step st + 1 /\
              n_lora_restarts up = n_lora_restarts st /\
              update_step s = update_step st + 1 /\
              checkpointed a ga st up s).
  { destruct H0 as [Hd0 Hs0].
    intros s Hus [[Hd Hs]|H]; [left; split; congruence|].
    right. exists ga, (optimizer_update st1).
    split; [assumption|]. split; [assumption|].
    split; [rewrite Hst1; reflexivity|]. split; [rewrite Hst1; reflexivity|].
    split; [rewrite Hst1; reflexivity|]. split; [rewrite Hst1; reflexivity|].
    split; [rewrite Hus, Hst1; reflexivity|].
    unfold checkpointed in *. rewrite <- Hd0, <- Hs0. exact H. }
  destruct (update_phase a env ga st1) as [st2|st2|st2|e st2] eqn:Hu.
  - rewrite <- Hga. apply Hgo; [|exact H1].
    apply update_phase_proceed in Hu. tauto.
  - destruct (update_phase_no_jump a env ga st1 st2); contradiction.
  - destruct (update_phase_no_jump a env ga st1 st2); contradiction.
  - rewrite <- Hga. apply Hgo; [|exact H1].
    apply update_phase_raised in Hu. tauto.
Qed.

End CheckpointFacts.

Section CheckpointRuns.

Context `{C : Collaborators}.
Variables (a : Args) (env : Env).

Lemma exists_is_Some (d : gmap string File) p :
  exists_ d p = true <-> is_Some (d !! p).
Proof.
  unfold exists_. destruct (d !! p); split; intros H;
    try reflexivity; try discriminate; [eauto|destruct H; discriminate].
Qed.

Lemma insert_keeps_paths (d : gmap string File) k v : keeps_paths d (<[k := v]> d).
Proof.
  intros p. rewrite !exists_is_Some, lookup_insert_is_Some'. auto.
Qed.

Lemma keeps_paths_trans (d1 d2 d3 : gmap string File) :
  keeps_paths d1 d2 -> keeps_paths d2 d3 -> keeps_paths d1 d3.
Proof. unfold keeps_paths. auto. Qed.

Lemma makedirs_ok (d d' : gmap string File) p :
  makedirs d p = Py.Ok d' -> p <> "" /\ d' = <[p := FDir]> d.
Proof.
  unfold makedirs. destruct (String.eqb_spec p ""); [discriminate|].
  destruct (d !! p) as [[]|]; intros H; try discriminate; injection H as <-; auto.
Qed.

(** A checkpoint only adds to the disk, and its directory is there
    afterwards. *)
Lemma save_model_ddp_keeps (d d' : gmap string File) m o s ts dir :
  save_model_ddp d m o s ts dir = Py.Ok d' ->
  keeps_paths d d' /\ exists_ d' dir = true.
Proof.
  unfold save_model_ddp. intros H.
  destruct (makedirs d (Path.dirname dir)) as [d1|] eqn:H1; [|discriminate].
  simpl in H. destruct (makedirs d1 dir) as [d2|] eqn:H2; [|discriminate].
  simpl in H. injection H as <-.
  apply makedirs_ok in H1 as [_ ->]. apply makedirs_ok in H2 as [_ ->].
  split.
  - repeat (eapply keeps_paths_trans; [|apply insert_keeps_paths]).
    intros p Hp. exact Hp.
  - rewrite exists_is_Some, !lookup_insert_is_Some'. auto.
Qed.

Lemma periodic_entry_later lo s s' entry :
  update_step s <= update_step s' ->
  keeps_paths (disk s) (disk s') ->
  periodic_entry a lo s entry -> periodic_entry a lo s' entry.
Proof.
  unfold periodic_entry. intros Hle Hkeep (H1 & H2 & H3 & H4 & H5 & H6).
  repeat split; auto; lia.
Qed.

(** What a run adds to the checkpoint trace are periodic checkpoints, each
    in the directory named after the update step it records. *)
Lemma train_loop_checkpoints st0 train_loader :
  let st' := snd (train_loop a env st0 train_loader) in
  update_step st0 <= update_step st' /\
  keeps_paths (disk st0) (disk st') /\
  exists new,
    saves (events st') = new ++ saves (events st0) /\
    (new = [] -> disk st' = disk st0) /\
    Forall (periodic_entry a (update_step st0) st') new.
Proof.
  set (I := fun s : LoopState =>
    update_step st0 <= update_step s /\
    keeps_paths (disk st0) (disk s) /\
    exists new,
      saves (events s) = new ++ saves (events st0) /\
      (new = [] -> disk s = disk st0) /\
      Forall (periodic_entry a (update_step st0) s) new).
  assert (Hstep : forall s batch, I s ->
            match train_iteration a env s batch with
            | Proceed s' | Continue s' | Break s' | Raised _ s' => I s'
            end).
  { intros s batch (Hle & Hkeep & new & Hsaves & Hnil & Hall).
    pose proof (train_iteration_spec a env s batch) as Hspec.
    pose proof (train_iteration_checkpoint a env s batch) as Hck.
    assert (Hquiet : forall s', update_step s <= update_step s' ->
              no_checkpoint s s' -> I s').
    { intros s' Hup [Hd Hs]. split; [lia|]. split; [rewrite Hd; exact Hkeep|].
      exists new. split; [congruence|]. split; [intros E; rewrite Hd; auto|].
      eapply Forall_impl; [exact Hall|].
      intros entry. apply periodic_entry_later; [exact Hup|].
      rewrite Hd. intros p Hp. exact Hp. }
    assert (Hsaved : forall s',
              (exists ga up,
                 gradient_accumulation a = Some ga /\
                 (global_step s + 1) mod ga = 0 /\
                 global_step up = global_step s + 1 /\
                 local_step up = local_step s + 1 /\
                 update_step up = update_step s + 1 /\
                 n_lora_restarts up = n_lora_restarts s /\
                 update_step s' = update_step s + 1 /\
                 checkpointed a ga s up s') -> I s').
    { intros s' (ga & up & Hga & Hmod & Hg & _ & Hu & _ & Hu' & Hl & Hdue & Hsave & Hev).
      apply save_model_ok in Hsave as [Hdt Hsave].
      apply save_model_ddp_keeps in Hsave as [Hk Hdir].
      split; [lia|]. split; [eapply keeps_paths_trans; eauto|].
      exists ((model_directory a (update_step up), training_state_checkpoint up) :: new).
      split; [rewrite Hev, Hsaves; reflexivity|]. split; [discriminate|].
      constructor.
      - unfold periodic_entry. simpl. rewrite Hg.
        repeat split; auto; try lia. exists ga. auto.
      - eapply Forall_impl; [exact Hall|].
        intros entry. apply periodic_entry_later; [lia|exact Hk]. }
    destruct (train_iteration a env s batch) as [s'|s'|s'|e s'].
    - destruct Hspec as (ga & _ & _ & _ & _ & _ & _ & Hu & _).
      destruct Hck as [Hq|Hs]; [apply Hquiet; [lia|exact Hq]|apply Hsaved; exact Hs].
    - destruct Hspec as (ga & _ & _ & _ & _ & _ & _ & Hu & _).
      apply Hquiet; [lia|exact Hck].
    - destruct Hspec as [_ ->]. apply Hquiet; [simpl; lia|exact Hck].
    - destruct Hck as [Hq|Hs]; [|apply Hsaved; exact Hs].
      apply Hquiet; [|exact Hq].
      destruct Hspec as [_ [Hadv|(ga & due & _ & _ & _ & _ & Hadv)]];
        destruct Hadv as (_ & _ & Hu & _); lia. }
  assert (Hstart : I st0).
  { split; [lia|]. split; [intros p Hp; exact Hp|].
    exists []. split; [reflexivity|]. split; [reflexivity|constructor]. }
  pose proof (train_loop_inv a env I I (fun _ => I)) as Hinv.
  specialize (Hinv Hstep train_loader st0 Hstart).
  destruct (train_loop a env st0 train_loader) as [[| |e] st']; exact Hinv.
Qed.

(** X1.  Every periodic checkpoint of a run lies in the directory named after
    the update step it records, is taken at a multiple of [save_every] on
    an update boundary, and its directory is on disk when the loop is
    left. *)
Theorem periodic_checkpoints_by_update_step st train_loader dir ts :
  saves (events st) = [] ->
  In (dir, ts) (saves (events (snd (train_loop a env st train_loader)))) ->
  dir = model_directory a (ck_update_step ts) /\
  ck_update_step ts mod save_every a = 0 /\
  update_step st < ck_update_step ts
    <= update_step (snd (train_loop a env st train_loader)) /\
  (exists ga, gradient_accumulation a = Some ga /\ ck_global_step ts mod ga = 0) /\
  exists_ (disk (snd (train_loop a env st train_loader))) dir = true.
Proof.
  intros Hnone Hin.
  destruct (train_loop_checkpoints st train_loader) as (_ & _ & new & Hsaves & _ & Hall).
  rewrite Hsaves, Hnone, app_nil_r in Hin.
  rewrite List.Forall_forall in Hall. apply Hall in Hin.
  destruct Hin as (H1 & H2 & H3 & H4 & _ & H6). simpl in *. auto.
Qed.

(** X2.  When the last update step of a run has its periodic checkpoint, the
    save after the loop writes nothing. *)
Theorem final_save_skipped_after_periodic st train_loader dir ts :
  saves (events st) = [] ->
  In (dir, ts) (saves (events (snd (train_loop a env st train_loader)))) ->
  ck_update_step ts = update_step (snd (train_loop a env st train_loader)) ->
  final_save a (snd (train_loop a env st train_loader))
  = Py.Ok (snd (train_loop a env st train_loader)).
Proof.
  intros Hnone Hin Hlast.
  destruct (train_loop_checkpoints st train_loader) as (_ & _ & new & Hsaves & _ & Hall).
  rewrite Hsaves, Hnone, app_nil_r in Hin.
  rewrite List.Forall_forall in Hall. apply Hall in Hin.
  destruct Hin as (H1 & _ & _ & _ & _ & H6). simpl in H1, H6.
  unfold final_save. rewrite <- Hlast, <- H1, H6. reflexivity.
Qed.

End CheckpointRuns.

(** ** Updates and resets along a run *)

Lemma div_succ (g ga : Z) :
  0 < ga ->
  (g + 1) / ga = g / ga + (if (g + 1) mod ga =? 0 then 1 else 0).
Proof.
  intros Hga. pose proof (succ_mod g ga Hga) as Hs.
  pose proof (Z.div_mod g ga ltac:(lia)) as Hg.
  pose proof (Z.mod_pos_bound g ga Hga) as Hb.
  destruct (Z.eqb_spec (g mod ga) (ga - 1)) as [E|E]; rewrite Hs.
  - simpl. symmetry. apply (Z.div_unique _ _ _ 0); lia.
  - destruct (Z.eqb_spec (g mod ga + 1) 0); [lia|].
    symmetry. apply (Z.div_unique _ _ _ (g mod ga + 1)); lia.
Qed.

Section RunFacts.

Context `{C : Collaborators}.
Variables (a : Args) (env : Env).

(** X3.  The optimizer updates of a run are the multiples of
    [gradient_accumulation] among the values [global_step] went through. *)
Theorem updates_follow_global_step ga st train_loader out st' :
  gradient_accumulation a = Some ga ->
  0 < ga ->
  train_loop a env st train_loader = (out, st') ->
  (forall e, out <> Failed e) ->
  update_step st' - update_step st
  = micro_steps_made out st' / ga - global_step st / ga.
Proof.
  intros Hga Hpos Hrun Hok.
  set (c := update_step st - global_step st / ga).
  pose proof (train_loop_inv a env
                (fun s => update_step s - global_step s / ga = c)
                (fun s => update_step s - (global_step s - 1) / ga = c)
                (fun _ _ => True)) as Hinv.
  assert (Hstep : forall s batch,
            update_step s - global_step s / ga = c ->
            match train_iteration a env s batch with
            | Proceed s' | Continue s' => update_step s' - global_step s' / ga = c
            | Break s' => update_step s' - (global_step s' - 1) / ga = c
            | Raised _ _ => True
            end).
  { intros s batch Hs. pose proof (train_iteration_spec a env s batch) as Hspec.
    destruct (train_iteration a env s batch) as [s'|s'|s'|e s']; [| | |exact I].
    - destruct Hspec as (ga' & Hga' & _ & _ & Hmod & Hg & _ & Hu & _).
      rewrite Hga in Hga'. injection Hga' as <-.
      rewrite Hg, Hu, (div_succ _ ga Hpos), Hmod. simpl. lia.
    - destruct Hspec as (ga' & Hga' & _ & _ & Hmod & Hg & _ & Hu & _).
      rewrite Hga in Hga'. injection Hga' as <-.
      rewrite Hg, Hu, (div_succ _ ga Hpos).
      destruct (Z.eqb_spec ((global_step s + 1) mod ga) 0); [contradiction|lia].
    - destruct Hspec as [_ ->]. simpl.
      replace (global_step s + 1 - 1) with (global_step s) by lia. exact Hs. }
  specialize (Hinv Hstep train_loader st eq_refl). rewrite Hrun in Hinv.
  destruct out as [| |e]; simpl.
  - subst c. lia.
  - subst c. lia.
  - destruct (Hok e). reflexivity.
Qed.

(** An interval below two never lets the reset through. *)
Lemma reset_due_interval ga l u :
  reset_due a ga l u = true -> exists interval, relora a = Some interval /\ 2 <= interval.
Proof.
  unfold reset_due, Py.mod_opt. intros H.
  apply andb_true_iff in H as [_ H].
  destruct (relora a) as [interval|]; [|discriminate].
  exists interval. split; [reflexivity|].
  destruct (Py.mod_ u interval) as [r|] eqn:Hmod; [|discriminate].
  apply mod_ok in Hmod as [Hnz ->]. apply Z.eqb_eq in H.
  destruct (Z_lt_le_dec interval 0) as [Hneg|Hnonneg].
  - pose proof (Z.mod_neg_bound u interval Hneg). lia.
  - destruct (Z.eq_dec interval 1) as [->|]; [rewrite Z.mod_1_r in H; lia|lia].
Qed.

(** X4.  With [relora] absent or below two, no merge-and-reset ever fires. *)
Theorem no_reset_below_interval_two st train_loader :
  (forall interval, relora a = Some interval -> interval < 2) ->
  resets (events (snd (train_loop a env st train_loader))) = resets (events st) /\
  n_lora_restarts (snd (train_loop a env st train_loader)) = n_lora_restarts st.
Proof.
  intros Hsmall.
  set (I := fun s : LoopState =>
    resets (events s) = resets (events st) /\ n_lora_restarts s = n_lora_restarts st).
  assert (Hnever : forall ga l u, reset_due a ga l u = false).
  { intros ga l u. destruct (reset_due a ga l u) eqn:Hdue; [|reflexivity].
    apply reset_due_interval in Hdue as (interval & Hrel & Htwo).
    apply Hsmall in Hrel. lia. }
  assert (Hadv : forall s s' batch du, I s -> advanced env s s' batch du false -> I s').
  { intros s s' batch du [Hr Hn] (_ & _ & _ & _ & Hn' & _ & _ & Hr').
    split; [rewrite Hr'; exact Hr|rewrite Hn'; lia]. }
  assert (Hstep : forall s batch, I s ->
            match train_iteration a env s batch with
            | Proceed s' | Continue s' | Break s' | Raised _ s' => I s'
            end).
  { intros s batch Hs. pose proof (train_iteration_spec a env s batch) as Hspec.
    destruct (train_iteration a env s batch) as [s'|s'|s'|e s'].
    - destruct Hspec as (ga & _ & _ & _ & _ & Hadv'). rewrite Hnever in Hadv'.
      eapply Hadv; eauto.
    - destruct Hspec as (ga & _ & _ & _ & _ & Hadv'). eapply Hadv; eauto.
    - destruct Hspec as [_ ->]. exact Hs.
    - destruct Hspec as [_ [Hadv'|(ga & due & _ & _ & _ & Hdue & Hadv')]];
        [eapply Hadv; eauto|].
      destruct due; [|eapply Hadv; eauto].
      specialize (Hdue eq_refl). rewrite Hnever in Hdue. discriminate. }
  pose proof (train_loop_inv a env I I (fun _ => I) Hstep train_loader st
                (conj eq_refl eq_refl)) as Hinv.
  destruct (train_loop a env st train_loader) as [[| |e] st']; exact Hinv.
Qed.

(** X5.  On a resumed run the guard on [local_step] is open, and the
    merge-and-reset follows every update to a step congruent to 1. *)
Theorem resumed_run_resets_every_period dir interval st train_loader out st' :
  resume_from a = Some dir ->
  relora a = Some interval ->
  interval <> 0 ->
  updates (events st) = [] ->
  train_loop a env st train_loader = (out, st') ->
  (forall e, out <> Failed e) ->
  forall u, In u (updates (events st')) -> u mod interval = 1 ->
            In u (resets (events st')).
Proof.
  intros Hres Hrel Hnz Hnone Hrun Hok.
  set (I := fun s : LoopState =>
    forall u, In u (updates (events s)) -> u mod interval = 1 ->
              In u (resets (events s))).
  assert (Hdue : forall ga l u, u mod interval = 1 -> reset_due a ga l u = true).
  { intros ga l u Hmod. unfold reset_due, can_reset, Py.mod_opt, Py.mod_.
    rewrite Hres, Hrel. simpl.
    destruct (Z.eqb_spec interval 0); [contradiction|]. rewrite Hmod. reflexivity. }
  assert (Hstep : forall s batch, I s ->
            match train_iteration a env s batch with
            | Proceed s' | Continue s' | Break s' => I s'
            | Raised _ _ => True
            end).
  { intros s batch Hs. pose proof (train_iteration_spec a env s batch) as Hspec.
    destruct (train_iteration a env s batch) as [s'|s'|s'|e s']; [| | |exact Logic.I].
    - destruct Hspec as (ga & _ & _ & _ & _ & _ & _ & _ & _ & _ & _ & Hup & Hre).
      intros u Hin Hmod. rewrite Hup in Hin. rewrite Hre. simpl in Hin.
      destruct Hin as [<-|Hin].
      + rewrite (Hdue _ _ _ Hmod). left. reflexivity.
      + apply in_or_app. right. apply Hs; assumption.
    - destruct Hspec as (ga & _ & _ & _ & _ & _ & _ & _ & _ & _ & _ & Hup & Hre).
      intros u Hin Hmod. rewrite Hup in Hin. rewrite Hre. simpl in *.
      apply Hs; assumption.
    - destruct Hspec as [_ ->]. exact Hs. }
  assert (Hstart : I st) by (intros u Hin; rewrite Hnone in Hin; destruct Hin).
  pose proof (train_loop_inv a env I I (fun _ _ => True) Hstep train_loader st Hstart)
    as Hinv.
  rewrite Hrun in Hinv. destruct out as [| |e]; [exact Hinv|exact Hinv|].
  destruct (Hok e). reflexivity.
Qed.

(** A run in which no pass through the body survives its update phase
    makes at most one optimizer update, and ends on it. *)
Lemma first_update_fails (P : LoopState -> Prop) (E : Py.exn -> Prop) :
  (forall s batch, P s ->
     match train_iteration a env s batch with
     | Proceed _ => False
     | Continue s' => P s'
     | Break _ => True
     | Raised e s' => updates (events s') = updates (events s) \/ E e
     end) ->
  forall train_loader st out st',
    P st ->
    train_loop a env st train_loader = (out, st') ->
    updates (events st') = updates (events st) \/
    exists e, out = Failed e /\ E e /\
              updates (events st') = (update_step st + 1) :: updates (events st).
Proof.
  intros Hstep train_loader.
  induction train_loader as [|batch rest IH]; intros st out st' Hst Hrun; simpl in Hrun.
  { injection Hrun as <- <-. left. reflexivity. }
  specialize (Hstep st batch Hst).
  pose proof (train_iteration_spec a env st batch) as Hspec.
  destruct (train_iteration a env st batch) as [s|s|s|e s].
  - contradiction.
  - destruct Hspec as (ga & _ & _ & _ & _ & _ & _ & Hu & _ & _ & _ & Hup & _).
    simpl in Hup. destruct (IH s out st' Hstep Hrun) as [Hsame|(e & -> & He & Hone)].
    + left. congruence.
    + right. exists e. repeat split; auto. rewrite Hone, Hup, Hu. f_equal. lia.
  - injection Hrun as <- <-. destruct Hspec as [_ ->]. left. reflexivity.
  - injection Hrun as <- <-.
    destruct Hspec as [_ [Hadv|(ga & due & _ & _ & _ & _ & Hadv)]].
    + destruct Hadv as (_ & _ & _ & _ & _ & _ & Hup & _). left. exact Hup.
    + destruct Hadv as (_ & _ & _ & _ & _ & _ & Hup & _). simpl in Hup.
      destruct Hstep as [Hsame|He].
      * rewrite Hup in Hsame. exfalso. clear -Hsame.
        assert (Hlen : length ((update_step st + 1) :: updates (events st))
                       = length (updates (events st))) by (rewrite Hsame; reflexivity).
        simpl in Hlen. lia.
      * right. exists e. auto.
Qed.

Lemma update_phase_zero_eval_every ga st :
  eval_every a = 0 ->
  match update_phase a env ga st with
  | Proceed _ => False
  | _ => True
  end.
Proof.
  intros Hzero. unfold update_phase, then_.
  destruct (periodic_save a ga (optimizer_update st)) as [s1| | |]; try exact I.
  destruct (relora_reset a ga s1) as [s2| | |]; try exact I.
  unfold periodic_eval. rewrite Hzero. unfold Py.mod_. simpl. exact I.
Qed.

(** X6.  With [eval_every = 0] no update step is ever completed: the first
    optimizer update of the run ends in an exception. *)
Theorem zero_eval_every_is_fatal st train_loader out st' :
  eval_every a = 0 ->
  train_loop a env st train_loader = (out, st') ->
  updates (events st') = updates (events st) \/
  (exists e, out = Failed e) /\
  updates (events st') = (update_step st + 1) :: updates (events st).
Proof.
  intros Hzero Hrun.
  destruct (first_update_fails (fun _ => True) (fun _ => True)) with
    (train_loader := train_loader) (st := st) (out := out) (st' := st')
    as [Hsame|(e & -> & _ & Hone)]; auto.
  - intros s batch _. unfold train_iteration, then_.
    destruct (micro_step a env s batch) as [s1|s1|s1|e s1] eqn:Hm; auto.
    + destruct (gradient_accumulation a) as [ga|].
      * pose proof (update_phase_zero_eval_every ga s1 Hzero) as Hu.
        destruct (update_phase a env ga s1); auto.
      * auto.
  - right. eauto.
Qed.

End RunFacts.

Section Exhaustion.

Context `{C : Collaborators}.
Variables (a : Args) (env : Env).

Lemma remaining_zero ga st :
  0 < ga -> remaining a ga st = 0 -> num_training_steps a <= update_step st.
Proof.
  intros Hpos. unfold remaining.
  pose proof (Z.mod_pos_bound (global_step st) ga Hpos).
  destruct (Z.leb_spec (num_training_steps a) (update_step st)); [lia|nia].
Qed.

(** X7.  The loop is left by [break] only on a batch beyond the last
    micro-step: a data source that ends with the last micro-step, or
    before it, is run through to its end. *)
Theorem data_exhausted_before_break ga train_loader :
  gradient_accumulation a = Some ga -> 0 < ga ->
  forall st out st',
    train_loop a env st train_loader = (out, st') ->
    (forall e, out <> Failed e) ->
    Z.of_nat (length train_loader) <= remaining a ga st ->
    out = Exhausted /\
    global_step st' = global_step st + Z.of_nat (length train_loader) /\
    remaining a ga st' = remaining a ga st - Z.of_nat (length train_loader) /\
    (Z.of_nat (length train_loader) = remaining a ga st ->
     num_training_steps a <= update_step st').
Proof.
  intros Hga Hpos.
  induction train_loader as [|batch rest IH]; intros st out st' Hrun Hok Hlen.
  { simpl in Hrun. injection Hrun as <- <-. simpl.
    split; [reflexivity|]. split; [lia|]. split; [lia|].
    intros E. apply (remaining_zero ga); [assumption|lia]. }
  simpl in Hrun.
  pose proof (train_iteration_spec a env st batch) as Hspec.
  pose proof (Z.mod_pos_bound (global_step st) ga Hpos) as Hb.
  pose proof (succ_mod (global_step st) ga Hpos) as Hsucc.
  assert (Hnext : forall st1,
            global_step st1 = global_step st + 1 ->
            remaining a ga st = remaining a ga st1 + 1 ->
            train_loop a env st1 rest = (out, st') ->
            out = Exhausted /\
            global_step st' = global_step st + Z.of_nat (length (batch :: rest)) /\
            remaining a ga st'
            = remaining a ga st - Z.of_nat (length (batch :: rest)) /\
            (Z.of_nat (length (batch :: rest)) = remaining a ga st ->
             num_training_steps a <= update_step st')).
  { intros st1 Hg Hrem Hrest. specialize (IH st1 out st' Hrest Hok).
    rewrite Hrem in Hlen. simpl length in Hlen.
    destruct IH as (-> & IHg & IHr & IHn); [lia|].
    simpl length. rewrite IHg, IHr, Hg, Hrem.
    split; [reflexivity|]. split; [lia|]. split; [lia|].
    intros E. apply IHn. lia. }
  destruct (train_iteration a env st batch) as [st1|st1|st1|e st1].
  - destruct Hspec as (ga' & Hga' & _ & Hlt & Hmod & Hadv).
    rewrite Hga in Hga'. injection Hga' as <-.
    destruct Hadv as (Hg & _ & Hu & _).
    apply (Hnext st1 Hg); [|exact Hrun].
    unfold remaining. rewrite Hg, Hu, Hmod.
    destruct (Z.leb_spec (num_training_steps a) (update_step st)); [lia|].
    destruct (Z.eqb_spec (global_step st mod ga) (ga - 1)); [|lia].
    destruct (Z.leb_spec (num_training_steps a) (update_step st + 1)); [|nia].
    replace (num_training_steps a - update_step st) with 1 by lia. lia.
  - destruct Hspec as (ga' & Hga' & _ & Hlt & Hmod & Hadv).
    rewrite Hga in Hga'. injection Hga' as <-.
    destruct Hadv as (Hg & _ & Hu & _).
    apply (Hnext st1 Hg); [|exact Hrun].
    unfold remaining. rewrite Hg, Hu.
    destruct (Z.leb_spec (num_training_steps a) (update_step st)); [lia|].
    destruct (Z.leb_spec (num_training_steps a) (update_step st + 0)); [lia|].
    destruct (Z.eqb_spec (global_step st mod ga) (ga - 1)); lia.
  - destruct Hspec as [Hge _]. exfalso. unfold remaining in Hlen.
    destruct (Z.leb_spec (num_training_steps a) (update_step st)); [|lia].
    simpl length in Hlen. lia.
  - injection Hrun as <- _. exfalso. eapply Hok. reflexivity.
Qed.

End Exhaustion.

Section UpdatePhaseFacts.

Context `{C : Collaborators}.
Variables (a : Args) (env : Env).

(** X8.  When the periodic checkpoint and the merge-and-reset fall on the
    same update step, the checkpoint is written first: it holds the
    weights before the merge, the optimizer before its reset and the
    restart count without this reset. *)
Theorem checkpoint_precedes_reset ga st st' :
  update_phase a env ga st = Proceed st' ->
  ga < local_step st ->
  (update_step st + 1) mod save_every a = 0 ->
  reset_due a ga (local_step st) (update_step st + 1) = true ->
  let up := optimizer_update st in
  let dir := model_directory a (update_step st + 1) in
  disk st' !! Path.join dir "pytorch_model.bin" = Some (FWeights (model up)) /\
  disk st' !! Path.join dir "optimizer.pt"
    = Some (FOptimizerPt (mkOptimizerCheckpoint (optimizer up) (scheduler up)
                            (update_step st + 1) (global_step st))) /\
  disk st' !! Path.join dir "training_state.json"
    = Some (FTrainingState (training_state_checkpoint up)) /\
  ck_n_lora_restarts (training_state_checkpoint up) = n_lora_restarts st /\
  model st' = merge_and_reinit (model up) /\
  optimizer st' = optimizer_reset (optimizer up) /\
  n_lora_restarts st' = n_lora_restarts st + 1.
Proof.
  intros H Hlocal Hsave Hdue up dir.
  unfold update_phase, then_ in H. fold up in H.
  destruct (periodic_save a ga up) as [s1| | |] eqn:H1; try discriminate.
  destruct (relora_reset a ga s1) as [s2| | |] eqn:H2; try discriminate.
  destruct (periodic_eval a env s2) as [s3| | |] eqn:H3; try discriminate.
  injection H as <-.
  unfold periodic_save in H1.
  change (local_step up) with (local_step st) in H1.
  change (update_step up) with (update_step st + 1) in H1.
  destruct (Z.ltb_spec ga (local_step st)); [|lia].
  destruct (Py.mod_ _ _) as [r|] eqn:Hmod; [|discriminate].
  apply mod_ok in Hmod as [_ ->]. rewrite Hsave in H1. simpl in H1.
  destruct (save_model _ _ _ _ _ _ _) as [d|] eqn:Hfiles; [|discriminate].
  injection H1 as <-.
  apply save_model_ok in Hfiles as [Hddp Hfiles].
  apply save_model_ddp_files in Hfiles as (Hw & Ho & Ht).
  apply relora_reset_proceed in H2. simpl in H2. rewrite Hdue, Hddp in H2. simpl in H2.
  assert (Hs3 : disk s3 = disk s2 /\ model s3 = model s2 /\ optimizer s3 = optimizer s2
                /\ n_lora_restarts s3 = n_lora_restarts s2).
  { apply periodic_eval_proceed in H3 as [->| ->]; simpl; auto. }
  destruct Hs3 as (Hd3 & Hm3 & Ho3 & Hn3). simpl.
  rewrite Hd3, Hm3, Ho3, Hn3, H2. simpl. auto 10.
Qed.

Lemma update_phase_zero_relora ga st :
  relora a = Some 0 -> 0 < ga -> 0 < local_step st <= ga ->
  update_phase a env ga st = Raised Py.ZeroDivisionError (optimizer_update st).
Proof.
  intros Hrel Hga Hlocal. unfold update_phase, periodic_save, then_. simpl.
  destruct (Z.ltb_spec ga (local_step st)); [lia|].
  unfold relora_reset, can_reset. simpl. rewrite Hrel.
  assert (Hopen : (0 <? local_step st * ga) = true) by (apply Z.ltb_lt; nia).
  rewrite Hopen, orb_true_r. reflexivity.
Qed.

(** X9.  With [relora = 0] a process never completes an update step: its
    first optimizer update is followed by ZeroDivisionError. *)
Theorem zero_relora_is_fatal ga st train_loader out st' :
  relora a = Some 0 ->
  gradient_accumulation a = Some ga ->
  0 < ga ->
  0 <= local_step st <= global_step st mod ga ->
  train_loop a env st train_loader = (out, st') ->
  updates (events st') = updates (events st) \/
  out = Failed Py.ZeroDivisionError /\
  updates (events st') = (update_step st + 1) :: updates (events st).
Proof.
  intros Hrel Hga Hpos Hlocal Hrun.
  destruct (first_update_fails a env
              (fun s => 0 <= local_step s <= global_step s mod ga)
              (fun e => e = Py.ZeroDivisionError))
    with (train_loader := train_loader) (st := st) (out := out) (st' := st')
    as [Hsame|(e & -> & -> & Hone)]; auto.
  intros s batch Hs. unfold train_iteration, then_.
  destruct (micro_step a env s batch) as [s1|s1|s1|e s1] eqn:Hm.
  - destruct (micro_step_goes_on a env s batch s1 (or_introl Hm))
      as (ga' & Hga' & _ & _ & _ & [Hiff _] & Hs1).
    rewrite Hga in Hga'. injection Hga' as <-. specialize (Hiff Hm).
    rewrite Hga. cbv beta iota.
    pose proof (succ_mod (global_step s) ga Hpos) as Hsucc. rewrite Hiff in Hsucc.
    destruct (Z.eqb_spec (global_step s mod ga) (ga - 1)); [|lia].
    rewrite update_phase_zero_relora; auto.
    subst s1. simpl. lia.
  - destruct (micro_step_goes_on a env s batch s1 (or_intror Hm))
      as (ga' & Hga' & _ & _ & _ & [_ Hback] & Hs1).
    rewrite Hga in Hga'. injection Hga' as <-.
    pose proof (succ_mod (global_step s) ga Hpos) as Hsucc.
    destruct (Z.eqb_spec (global_step s mod ga) (ga - 1)).
    + apply Hback in Hsucc. rewrite Hm in Hsucc. discriminate.
    + subst s1. simpl. lia.
  - exact I.
  - apply micro_step_raised in Hm as (_ & _ & _ & _ & _ & _ & Hev & _).
    left. rewrite Hev. reflexivity.
Qed.

End UpdatePhaseFacts.

(** ** Start-up *)

Lemma check_batch_sizes_same_run (a a' : Args) ws :
  check_batch_sizes a ws = Py.Ok a' ->
  same_run a a' /\ num_training_steps a' = num_training_steps a.
Proof.
  unfold check_batch_sizes. intros H.
  destruct (match total_batch_size a with Some _ => _ | None => _ end)
    as [a1|] eqn:Hderive; [|discriminate].
  simpl in H. destruct (batch_sizes_agree a1 ws) as [[]|]; try discriminate.
  simpl in H. injection H as <-.
  assert (Hshape : a1 = a \/ exists ga, a1 = set_gradient_accumulation a (Some ga)).
  { destruct (total_batch_size a) as [total|]; [|injection Hderive; auto].
    destruct (gradient_accumulation a); [injection Hderive; auto|].
    destruct (Py.mod_ total ws) as [r|]; [|discriminate]. simpl in Hderive.
    destruct (negb (r =? 0)); [discriminate|].
    destruct (batch_size a) as [bs|]; [|discriminate].
    destruct (Py.floordiv total (bs * ws)) as [ga|]; [|discriminate].
    simpl in Hderive. destruct (0 <? ga); [|discriminate].
    injection Hderive as <-. eauto. }
  destruct Hshape as [->|[ga ->]]; unfold same_run; simpl; auto 20.
Qed.

Lemma apply_max_train_tokens_same_run (a a' : Args) :
  apply_max_train_tokens a = Py.Ok a' ->
  same_run a a' /\ gradient_accumulation a' = gradient_accumulation a.
Proof.
  unfold apply_max_train_tokens. intros H.
  destruct (max_train_tokens a) as [tokens|].
  - destruct (total_batch_size a) as [total|]; [|discriminate].
    destruct (Py.floordiv tokens total) as [n|]; [|discriminate].
    simpl in H. injection H as <-. unfold same_run. simpl. auto 20.
  - injection H as <-. unfold same_run. auto 20.
Qed.

(** X10.  A missing [gradient_accumulation] is derived as
    [total_batch_size // (batch_size * world_size)]; the start-up check
    lets it through only if it is positive and the division was exact. *)
Theorem derived_gradient_accumulation (a a' : Args) (ws : Z) :
  gradient_accumulation a = None ->
  check_batch_sizes a ws = Py.Ok a' ->
  exists total bs ga,
    total_batch_size a = Some total /\ batch_size a = Some bs /\
    gradient_accumulation a' = Some ga /\
    ga = total / (bs * ws) /\ 0 < ga /\
    total mod ws = 0 /\ total mod (bs * ws) = 0.
Proof.
  unfold check_batch_sizes. intros Hnone H. rewrite Hnone in H.
  destruct (total_batch_size a) as [total|] eqn:Htotal.
  - destruct (Py.mod_ total ws) as [r|] eqn:Hmod; [|discriminate].
    apply mod_ok in Hmod as [Hws ->]. simpl in H.
    destruct (Z.eqb_spec (total mod ws) 0) as [Hdiv|]; [|discriminate]. simpl in H.
    destruct (batch_size a) as [bs|] eqn:Hbs; [|discriminate].
    unfold Py.floordiv in H.
    destruct (Z.eqb_spec (bs * ws) 0) as [|Hnz]; [discriminate|]. simpl in H.
    destruct (Z.ltb_spec 0 (total / (bs * ws))) as [Hpos|]; [|discriminate].
    simpl in H. unfold batch_sizes_agree in H. simpl in H. rewrite Hbs, Htotal in H.
    simpl in H.
    destruct (Z.eqb_spec (total / (bs * ws) * bs * ws) total) as [Hagree|];
      [|discriminate].
    injection H as <-. exists total, bs, (total / (bs * ws)). simpl.
    repeat split; auto.
    rewrite <- Hagree at 1.
    replace (total / (bs * ws) * bs * ws) with (total / (bs * ws) * (bs * ws)) by ring.
    apply Z.mod_mul. assumption.
  - simpl in H. unfold batch_sizes_agree in H. rewrite Hnone in H. discriminate.
Qed.

Section StartupFacts.

Context `{C : Collaborators}.
Variable get_last : gmap string File -> string -> option string.

(** X11.  An existing save directory stops the run before anything is
    written, unless [autoresume] is set. *)
Theorem existing_save_dir_needs_autoresume (a : Args) env (d : gmap string File)
    m o s dataset :
  exists_ d (save_dir a) = true ->
  autoresume a = false ->
  exists e,
    main get_last a env d m o s dataset = Crashed e [] d /\
    (forall a1 a2,
       check_batch_sizes a (world_size env) = Py.Ok a1 ->
       apply_max_train_tokens a1 = Py.Ok a2 ->
       e = Py.ValueError).
Proof.
  intros Hthere Hoff. unfold main.
  destruct (check_batch_sizes a (world_size env)) as [a1|e1] eqn:H1.
  2:{ exists e1. split; [reflexivity|]. intros; discriminate. }
  destruct (apply_max_train_tokens a1) as [a2|e2] eqn:H2.
  2:{ exists e2. split; [reflexivity|]. intros ? ? E. injection E as <-.
      rewrite H2. discriminate. }
  apply check_batch_sizes_same_run in H1 as [(_ & _ & _ & _ & _ & _ & _ & Hauto1 & _ & _ & Hdir1 & _) _].
  apply apply_max_train_tokens_same_run in H2 as [(_ & _ & _ & _ & _ & _ & _ & Hauto2 & _ & _ & Hdir2 & _) _].
  unfold prepare_save_dir. rewrite Hdir2, Hdir1, Hthere, Hauto2, Hauto1, Hoff. simpl.
  exists Py.ValueError. split; [reflexivity|]. intros; reflexivity.
Qed.

Lemma resume_optimizer_unbound (a : Args) st :
  truthy (resume_from a) = true ->
  exists e, resume_optimizer a None st = Py.Raise e.
Proof.
  unfold resume_optimizer. intros Htruthy. rewrite Htruthy.
  destruct (resume_from a) as [dir|]; [|discriminate].
  destruct (replay_scheduler _ _ _) as [s o].
  destruct (disk st !! Path.join dir "optimizer.pt") as [[]|]; eauto.
Qed.

(** X12.  A [resume_from] given on the command line never leads to a resumed
    run.  When the save directory is not there yet, the resume block ends
    in an exception before the first training step. *)
Theorem command_line_resume_never_trains (a : Args) env (d : gmap string File)
    m o s dataset :
  truthy (resume_from a) = true ->
  exists_ d (save_dir a) = false ->
  exists e d', main get_last a env d m o s dataset = Crashed e [] d'.
Proof.
  intros Htruthy Habsent. unfold main.
  destruct (check_batch_sizes a (world_size env)) as [a1|e1] eqn:H1; [|eauto].
  destruct (apply_max_train_tokens a1) as [a2|e2] eqn:H2; [|eauto].
  apply check_batch_sizes_same_run in H1 as [(_ & _ & _ & _ & Hres1 & _ & _ & _ & _ & _ & Hdir1 & _) _].
  apply apply_max_train_tokens_same_run in H2 as [(_ & _ & _ & _ & Hres2 & _ & _ & _ & _ & _ & Hdir2 & _) _].
  unfold prepare_save_dir. rewrite Hdir2, Hdir1, Habsent. simpl.
  rewrite Hdir2, Hdir1.
  destruct (makedirs d (save_dir a)) as [d1|e3]; simpl; [|eauto].
  destruct (load_warmed_up_model a2 _) as [st1|e4]; simpl; [|eauto].
  destruct (resume_training_state a2 st1) as [st2|e5]; simpl; [|eauto].
  destruct (distributed_wrapping a2) as [wrapped|e6]; simpl; [|eauto].
  destruct (resume_optimizer_unbound a2 st2) as [e7 ->]; [congruence|eauto].
Qed.

Lemma check_batch_sizes_resume_from (a : Args) ws r :
  check_batch_sizes (set_resume_from a r) ws
  = match check_batch_sizes a ws with
    | Py.Ok a' => Py.Ok (set_resume_from a' r)
    | Py.Raise e => Py.Raise e
    end.
Proof.
  destruct a as [bs ga total tokens steps interval from warm peft auto se ee dir dt].
  unfold check_batch_sizes, batch_sizes_agree, set_resume_from, Py.mod_, Py.floordiv.
  simpl.
  destruct total as [total|], ga as [ga|], bs as [bs|]; simpl; try reflexivity.
  - destruct (ga * bs * ws =? total); reflexivity.
  - destruct (ws =? 0); simpl; [reflexivity|].
    destruct (negb (total mod ws =? 0)); simpl; [reflexivity|].
    destruct (bs * ws =? 0); simpl; [reflexivity|].
    destruct (0 <? total / (bs * ws)); simpl; [|reflexivity].
    destruct (total / (bs * ws) * bs * ws =? total); reflexivity.
  - destruct (ws =? 0); simpl; [reflexivity|].
    destruct (negb (total mod ws =? 0)); reflexivity.
Qed.

Lemma apply_max_train_tokens_resume_from (a : Args) r :
  apply_max_train_tokens (set_resume_from a r)
  = match apply_max_train_tokens a with
    | Py.Ok a' => Py.Ok (set_resume_from a' r)
    | Py.Raise e => Py.Raise e
    end.
Proof.
  unfold apply_max_train_tokens. simpl.
  destruct (max_train_tokens a) as [tokens|]; [|reflexivity].
  destruct (total_batch_size a) as [total|]; [|reflexivity].
  destruct (Py.floordiv tokens total); reflexivity.
Qed.

(** X13.  When the save directory exists and [autoresume] is set, the run
    does not depend on the [resume_from] of the command line: the
    directory found by [get_last_training_state] takes its place. *)
Theorem autoresume_overrides_resume_from (a : Args) r env (d : gmap string File)
    m o s dataset :
  exists_ d (save_dir a) = true ->
  autoresume a = true ->
  main get_last (set_resume_from a r) env d m o s dataset
  = main get_last a env d m o s dataset.
Proof.
  intros Hthere Hon. unfold main.
  rewrite check_batch_sizes_resume_from.
  destruct (check_batch_sizes a (world_size env)) as [a1|e1] eqn:H1; [|reflexivity].
  rewrite apply_max_train_tokens_resume_from.
  destruct (apply_max_train_tokens a1) as [a2|e2] eqn:H2; [|reflexivity].
  apply check_batch_sizes_same_run in H1 as [(_ & _ & _ & _ & _ & _ & _ & Hauto1 & _ & _ & Hdir1 & _) _].
  apply apply_max_train_tokens_same_run in H2 as [(_ & _ & _ & _ & _ & _ & _ & Hauto2 & _ & _ & Hdir2 & _) _].
  assert (Hprep : prepare_save_dir get_last (set_resume_from a2 r) d
                  = prepare_save_dir get_last a2 d).
  { unfold prepare_save_dir. simpl. rewrite Hdir2, Hdir1, Hthere, Hauto2, Hauto1.
    reflexivity. }
  rewrite Hprep. reflexivity.
Qed.

End StartupFacts.

(** ** Paths *)

Lemma has_slash_rev_app (s1 s2 : string) :
  has_slash (String.rev_app s1 s2) = has_slash s1 || has_slash s2.
Proof.
  revert s2. induction s1 as [|c s1 IH]; intros s2; simpl; [reflexivity|].
  rewrite IH. simpl. destruct (has_slash s1), (Path.is_slash c); reflexivity.
Qed.

Lemma after_slash_no_slash (r : string) :
  has_slash r = false -> Path.after_slash r = "".
Proof.
  induction r as [|c r IH]; simpl; [reflexivity|].
  intros H. apply orb_false_iff in H as [-> H]. auto.
Qed.

Lemma dirname_no_slash (p : string) :
  has_slash p = false -> Path.dirname p = "".
Proof.
  intros H. unfold Path.dirname, String.rev.
  rewrite after_slash_no_slash; [reflexivity|].
  rewrite has_slash_rev_app, H. reflexivity.
Qed.

Section ResumeFacts.

Context `{C : Collaborators}.

(** X14.  The checkpoint after the loop needs a save directory with a
    directory part: for a bare name the parent to create is the empty
    path, and the save raises. *)
Theorem final_save_without_parent_directory (a : Args) st :
  has_slash (save_dir a) = false ->
  distributed_type a = "ddp" ->
  exists_ (disk st) (model_directory a (update_step st)) = false ->
  final_save a st = Py.Raise Py.FileNotFoundError.
Proof.
  intros Hbare Hddp Habsent. unfold final_save. rewrite Habsent.
  unfold save_model, save_model_ddp. rewrite Hddp, (dirname_no_slash _ Hbare).
  reflexivity.
Qed.

(** X15.  A warmed-up model brings its weights and the step and token
    counters of the training state saved next to them, but neither the
    restart count nor the optimizer and scheduler. *)
Theorem warm_up_restores_counters (a : Args) dir ts m o s (d : gmap string File) st0 :
  warmed_up_model a = Some dir ->
  save_model_ddp d m o s ts dir = Py.Ok (disk st0) ->
  exists st,
    load_warmed_up_model a st0 = Py.Ok st /\
    model st = m /\
    global_step st = ck_global_step ts /\
    update_step st = ck_update_step ts /\
    tokens_seen st = ck_tokens_seen ts /\
    tokens_seen_before st = ck_tokens_seen_before ts /\
    n_lora_restarts st = n_lora_restarts st0 /\
    local_step st = local_step st0 /\
    optimizer st = optimizer st0 /\
    scheduler st = scheduler st0.
Proof.
  intros Hwarm Hsave. apply save_model_ddp_files in Hsave as (Hw & _ & Ht).
  unfold load_warmed_up_model. rewrite Hwarm, Hw, Ht.
  eexists. split; [reflexivity|]. simpl. auto 10.
Qed.




End ResumeFacts.

(** ** Evaluation runs *)

Section EvaluationFacts.

Context `{C : Collaborators}.

(** X18.  Unless a NaN loss stops it, a rank with data runs the loop body
    once for each index up to [n_eval_iters], that is once more than
    that number when the data reaches that far, and over all its data
    when the budget is [-1]. *)
Theorem evaluation_pass_count loaders m target r n :
  nth r loaders [] <> [] ->
  existsb is_empty_loader loaders = false ->
  n_eval_iters loaders target = Py.Ok n ->
  (forall batch, In batch (nth r loaders []) -> 0 < numel batch) ->
  eval_rank loaders m target r = Py.Raise Py.RuntimeError \/
  eval_passes loaders m target r
  = Some (if target =? -1 then length (nth r loaders [])
          else Nat.min (length (nth r loaders [])) (Z.to_nat (n + 1))).
Proof.
  intros Hdata Hall Hn Hpos. unfold eval_passes, eval_rank.
  destruct (nth r loaders []) as [|b0 rest] eqn:Hmine; [contradiction|].
  rewrite Hall, Hn. unfold Py.bind.
  assert (Hrun : exists l t,
            eval_batches m target n 0 F32.zero F32.zero 0 (b0 :: rest)
            = Py.Ok (l, t, if target =? -1 then length (b0 :: rest)
                           else Nat.min (length (b0 :: rest)) (Z.to_nat (n + 1)))).
  { destruct (Z.eqb_spec target (-1)) as [->|Hfinite].
    - apply (eval_batches_unbounded m n (b0 :: rest) Hpos 0 F32.zero F32.zero 0%nat).
    - destruct (eval_batches_capped m target n (b0 :: rest) Hfinite Hpos
                  0 F32.zero F32.zero 0%nat) as (l & t & E).
      exists l, t. rewrite E. replace (n + 1 - 0) with (n + 1) by lia. reflexivity. }
  destruct Hrun as (l & t & ->). cbn [fst snd].
  destruct (F32.isnan l); [left; reflexivity|right; reflexivity].
Qed.

Lemma gather_all_ok (f : nat -> Py.result (spec_float * spec_float * nat)) acc ranks :
  (forall r, f r = Py.Ok acc) ->
  gather (map f ranks) = Py.Ok (map (fun _ => acc) ranks).
Proof.
  intros Hf. induction ranks as [|r ranks IH]; simpl; [reflexivity|].
  rewrite Hf, IH. reflexivity.
Qed.

Lemma all_reduce_sum_zeros {A} (ranks : list A) :
  all_reduce_sum (map (fun _ => F32.zero) ranks) = F32.zero.
Proof.
  unfold all_reduce_sum. induction ranks as [|r ranks IH]; simpl; [reflexivity|].
  exact IH.
Qed.

(** X19.  When no rank has evaluation data, the evaluation does not raise:
    it returns a NaN loss on zero tokens. *)
Theorem evaluation_of_empty_data_is_nan (n rank : nat) m target :
  evaluate_model rank (repeat [] n) m target = Py.Ok (S754_nan, F32.zero).
Proof.
  assert (Hrank : forall r,
            eval_rank (repeat [] n) m target r = Py.Ok (F32.zero, F32.zero, 0%nat)).
  { intros r. unfold eval_rank. rewrite nth_repeat. reflexivity. }
  unfold evaluate_model. rewrite Hrank. unfold Py.bind.
  rewrite (gather_all_ok _ _ _ Hrank), !map_map. cbn [fst snd].
  rewrite all_reduce_sum_zeros. reflexivity.
Qed.

Lemma eval_batches_zero_batch m target n batches :
  forall (j : nat) batch i loss_sum token_sum passes,
    nth_error batches j = Some batch ->
    numel batch <= 0 ->
    (forall (k : nat) b, (k < j)%nat -> nth_error batches k = Some b -> 0 < numel b) ->
    target = -1 \/ i + Z.of_nat j <= n ->
    eval_batches m target n i loss_sum token_sum passes batches
    = Py.Raise (Py.AssertionError "Batch size is zero").
Proof.
  induction batches as [|b rest IH];
    intros j batch i loss_sum token_sum passes Hj Hzero Hbefore Hreach.
  { destruct j; discriminate. }
  cbn [eval_batches].
  assert (Hgo : negb (target =? -1) && (n <? i) = false).
  { destruct Hreach as [->|Hle]; [reflexivity|].
    apply andb_false_iff. right. apply Z.ltb_ge. lia. }
  rewrite Hgo. destruct j as [|j]; simpl in Hj.
  - injection Hj as ->. destruct (Z.ltb_spec 0 (numel batch)); [lia|reflexivity].
  - assert (Hb : 0 < numel b) by (apply (Hbefore 0%nat); [lia|reflexivity]).
    destruct (Z.ltb_spec 0 (numel b)); [|lia].
    apply (IH j batch); auto.
    + intros k b' Hk Hb'. apply (Hbefore (S k)); [lia|exact Hb'].
    + destruct Hreach; [auto|right; lia].
Qed.

(** X20.  A batch without tokens within the evaluated range fails the
    assertion of the evaluation loop. *)
Theorem empty_batch_fails_evaluation loaders m target rank n (j : nat) batch :
  existsb is_empty_loader loaders = false ->
  n_eval_iters loaders target = Py.Ok n ->
  nth_error (nth rank loaders []) j = Some batch ->
  numel batch <= 0 ->
  (forall (k : nat) b, (k < j)%nat ->
     nth_error (nth rank loaders []) k = Some b -> 0 < numel b) ->
  target = -1 \/ Z.of_nat j <= n ->
  evaluate_model rank loaders m target
  = Py.Raise (Py.AssertionError "Batch size is zero").
Proof.
  intros Hall Hn Hj Hzero Hbefore Hreach.
  unfold evaluate_model, eval_rank.
  destruct (nth rank loaders []) as [|b0 rest] eqn:Hmine; [destruct j; discriminate|].
  rewrite Hall, Hn. unfold Py.bind at 3.
  rewrite (eval_batches_zero_batch m target n (b0 :: rest) j batch); auto.
Qed.

End EvaluationFacts.

(** ** After the loop *)

Section AfterTrainingFacts.

Context `{C : Collaborators}.
Variables (a : Args) (env : Env).

Lemma final_save_forwards st st' :
  final_save a st = Py.Ok st' -> forwards (events st') = forwards (events st).
Proof.
  unfold final_save. intros H.
  destruct (exists_ (disk st) _); [injection H as <-; reflexivity|].
  destruct (save_model _ _ _ _ _ _ _); [|discriminate].
  simpl in H. injection H as <-. reflexivity.
Qed.

(** X21.  A process that computes no loss, because it starts at or beyond
    its target or because its training data is empty, never reaches the
    final evaluation: once the checkpoint after the loop is written,
    releasing [loss] raises UnboundLocalError. *)
Theorem no_loss_no_final_evaluation st train_loader :
  forwards (events st) = [] ->
  num_training_steps a <= update_step st \/ train_loader = [] ->
  let run := train_loop a env st train_loader in
  forwards (events (snd run)) = [] /\
  exists e evs d,
    after_training a env (fst run) (snd run) = Crashed e evs d /\
    (forall st', final_save a (snd run) = Py.Ok st' -> e = Py.UnboundLocalError).
Proof.
  intros Hnone Hdone run.
  assert (Hquiet : forwards (events (snd run)) = []).
  { subst run. destruct train_loader as [|batch rest]; [exact Hnone|].
    destruct Hdone as [Hdone|]; [|discriminate].
    simpl. unfold train_iteration, micro_step, then_.
    destruct (Z.leb_spec (num_training_steps a) (update_step st)); [|lia].
    exact Hnone. }
  split; [exact Hquiet|]. unfold after_training.
  destruct (final_save a (snd run)) as [st'|e] eqn:Hsave.
  - rewrite (final_save_forwards _ _ Hsave), Hquiet.
    exists Py.UnboundLocalError, (events st'), (disk st'). auto.
  - exists e, (events (snd run)), (disk (snd run)).
    split; [reflexivity|]. intros; discriminate.
Qed.

End AfterTrainingFacts.

(** ** Concrete runs *)

Lemma periodic_checkpoints_by_update_step_witness :
  let a := Cases.saving "ddp" in
  let run := train_loop a (Sim.env 1) Sim.fresh (repeat (Sim.plain 128) 10) in
  let ts := mkTrainingStateCheckpoint 2 2 256 128 0 in
  "ckpt/run/model_2" = model_directory a (ck_update_step ts) /\
  ck_update_step ts mod save_every a = 0 /\
  update_step Sim.fresh < ck_update_step ts <= update_step (snd run) /\
  (exists ga, gradient_accumulation a = Some ga /\ ck_global_step ts mod ga = 0) /\
  exists_ (disk (snd run)) "ckpt/run/model_2" = true.
Proof.
  intros a run ts.
  apply (periodic_checkpoints_by_update_step a (Sim.env 1) Sim.fresh
           (repeat (Sim.plain 128) 10) "ckpt/run/model_2" ts).
  - reflexivity.
  - vm_compute. right. left. reflexivity.
Defined.

Lemma final_save_skipped_after_periodic_witness :
  let a := Cases.saving "ddp" in
  let run := train_loop a (Sim.env 1) Sim.fresh (repeat (Sim.plain 128) 10) in
  fst run = Stopped /\ update_step (snd run) = 4 /\
  final_save a (snd run) = Py.Ok (snd run).
Proof.
  intros a run. split; [vm_compute; reflexivity|]. split; [vm_compute; reflexivity|].
  apply (final_save_skipped_after_periodic a (Sim.env 1) Sim.fresh
           (repeat (Sim.plain 128) 10) "ckpt/run/model_4"
           (mkTrainingStateCheckpoint 4 4 512 384 0)).
  - reflexivity.
  - vm_compute. left. reflexivity.
  - vm_compute. reflexivity.
Defined.

Lemma updates_follow_global_step_witness :
  let a := Sim.args 4 20 None in
  let run := train_loop a (Sim.env 1) Cases.unaligned (repeat (Sim.plain 128) 3) in
  fst run = Exhausted /\
  updates (events (snd run)) = [11] /\
  update_step (snd run) - update_step Cases.unaligned
  = micro_steps_made (fst run) (snd run) / 4 - global_step Cases.unaligned / 4.
Proof.
  intros a run. split; [vm_compute; reflexivity|]. split; [vm_compute; reflexivity|].
  apply (updates_follow_global_step a (Sim.env 1) 4 Cases.unaligned
           (repeat (Sim.plain 128) 3) (fst run) (snd run)).
  - reflexivity.
  - lia.
  - apply surjective_pairing.
  - intros e. vm_compute. discriminate.
Defined.

Lemma no_reset_below_interval_two_witness :
  let a := Sim.args 1 5 (Some 1) in
  let run := train_loop a (Sim.env 1) Sim.fresh (repeat (Sim.plain 128) 10) in
  updates (events (snd run)) = [5; 4; 3; 2; 1] /\
  resets (events (snd run)) = resets (events Sim.fresh) /\
  n_lora_restarts (snd run) = n_lora_restarts Sim.fresh.
Proof.
  intros a run. split; [vm_compute; reflexivity|].
  apply (no_reset_below_interval_two a (Sim.env 1) Sim.fresh (repeat (Sim.plain 128) 10)).
  intros interval H. simpl in H. injection H as <-. lia.
Defined.

Lemma resumed_run_resets_every_period_witness :
  let a := set_resume_from (Sim.args 2 200 (Some 100)) (Some "ckpt/run/model_100") in
  let run := train_loop a (Sim.env 1) Cases.resumed_at_100 (repeat (Sim.plain 128) 4) in
  local_step (snd run) = 4 /\
  updates (events (snd run)) = [102; 101] /\
  In 101 (resets (events (snd run))).
Proof.
  intros a run. split; [vm_compute; reflexivity|]. split; [vm_compute; reflexivity|].
  apply (resumed_run_resets_every_period a (Sim.env 1) "ckpt/run/model_100" 100
           Cases.resumed_at_100 (repeat (Sim.plain 128) 4) (fst run) (snd run)).
  - reflexivity.
  - reflexivity.
  - lia.
  - reflexivity.
  - apply surjective_pairing.
  - intros e. vm_compute. discriminate.
  - vm_compute. right. left. reflexivity.
  - reflexivity.
Defined.

Lemma zero_eval_every_is_fatal_witness :
  let a := Cases.run 2 10 None 10000 0 "ckpt/run" "ddp" false in
  let run := train_loop a (Sim.env 1) Sim.fresh (repeat (Sim.plain 128) 10) in
  fst run = Failed Py.ZeroDivisionError /\
  (updates (events (snd run)) = updates (events Sim.fresh) \/
   (exists e, fst run = Failed e) /\
   updates (events (snd run)) = (update_step Sim.fresh + 1) :: updates (events Sim.fresh)).
Proof.
  intros a run. split; [vm_compute; reflexivity|].
  apply (zero_eval_every_is_fatal a (Sim.env 1) Sim.fresh (repeat (Sim.plain 128) 10)).
  - reflexivity.
  - apply surjective_pairing.
Defined.

Lemma zero_relora_is_fatal_witness :
  let a := Sim.args 2 10 (Some 0) in
  let run := train_loop a (Sim.env 1) Sim.fresh (repeat (Sim.plain 128) 10) in
  length (forwards (events (snd run))) = 2%nat /\
  (updates (events (snd run)) = updates (events Sim.fresh) \/
   fst run = Failed Py.ZeroDivisionError /\
   updates (events (snd run)) = (update_step Sim.fresh + 1) :: updates (events Sim.fresh)).
Proof.
  intros a run. split; [vm_compute; reflexivity|].
  apply (zero_relora_is_fatal a (Sim.env 1) 2 Sim.fresh (repeat (Sim.plain 128) 10)).
  - reflexivity.
  - reflexivity.
  - lia.
  - vm_compute. split; discriminate.
  - apply surjective_pairing.
Defined.

Lemma checkpoint_precedes_reset_witness :
  let a := Cases.run 1 10 (Some 3) 4 1000 "ckpt/run" "ddp" false in
  let st := Cases.before_fourth_update in
  let st' := match update_phase a (Sim.env 1) 1 st with Proceed s => s | _ => st end in
  let up := optimizer_update st in
  let dir := model_directory a (update_step st + 1) in
  disk st' !! Path.join dir "pytorch_model.bin" = Some (FWeights (model up)) /\
  disk st' !! Path.join dir "optimizer.pt"
    = Some (FOptimizerPt (mkOptimizerCheckpoint (optimizer up) (scheduler up)
                            (update_step st + 1) (global_step st))) /\
  disk st' !! Path.join dir "training_state.json"
    = Some (FTrainingState (training_state_checkpoint up)) /\
  ck_n_lora_restarts (training_state_checkpoint up) = n_lora_restarts st /\
  model st' = merge_and_reinit (model up) /\
  optimizer st' = optimizer_reset (optimizer up) /\
  n_lora_restarts st' = n_lora_restarts st + 1.
Proof.
  intros a st st'.
  apply (checkpoint_precedes_reset a (Sim.env 1) 1 st st').
  - reflexivity.
  - reflexivity.
  - reflexivity.
  - reflexivity.
Defined.

Lemma derived_gradient_accumulation_witness :
  let a := set_gradient_accumulation (Sim.args 8 10 None) None in
  let a' := match check_batch_sizes a 2 with Py.Ok a' => a' | Py.Raise _ => a end in
  gradient_accumulation a' = Some 4 /\
  exists total bs ga,
    total_batch_size a = Some total /\ batch_size a = Some bs /\
    gradient_accumulation a' = Some ga /\
    ga = total / (bs * 2) /\ 0 < ga /\
    total mod 2 = 0 /\ total mod (bs * 2) = 0.
Proof.
  intros a a'. split; [reflexivity|].
  apply (derived_gradient_accumulation a a' 2); reflexivity.
Defined.

Lemma existing_save_dir_needs_autoresume_witness :
  let a := Sim.args 2 10 None in
  exists e,
    main Sim.no_last_state a (Sim.env 1) Cases.old_run 0 0 0 (repeat (Sim.plain 128) 50)
    = Crashed e [] Cases.old_run /\
    (forall a1 a2,
       check_batch_sizes a (world_size (Sim.env 1)) = Py.Ok a1 ->
       apply_max_train_tokens a1 = Py.Ok a2 ->
       e = Py.ValueError).
Proof.
  intros a.
  apply (existing_save_dir_needs_autoresume Sim.no_last_state a (Sim.env 1)
           Cases.old_run 0 0 0 (repeat (Sim.plain 128) 50)); reflexivity.
Defined.

Lemma command_line_resume_never_trains_witness :
  let a := set_resume_from (Sim.args 2 10 (Some 100)) (Some "old/model_2") in
  let d := Cases.saved_on ∅ "old/model_2" in
  let outcome := main Sim.no_last_state a (Sim.env 1) d 0 0 0 (repeat (Sim.plain 128) 50) in
  match outcome with
  | Crashed e _ _ => e = Py.UnboundLocalError
  | Finished _ _ => False
  end /\
  exists e d', outcome = Crashed e [] d'.
Proof.
  intros a d outcome. split; [vm_compute; reflexivity|].
  apply (command_line_resume_never_trains Sim.no_last_state a (Sim.env 1) d 0 0 0
           (repeat (Sim.plain 128) 50)); reflexivity.
Defined.

Lemma autoresume_overrides_resume_from_witness :
  let a := Cases.run 2 10 None 10000 1000 "ckpt/run" "ddp" true in
  main Sim.no_last_state (set_resume_from a (Some "old/model_2")) (Sim.env 1)
    Cases.old_run 0 0 0 (repeat (Sim.plain 128) 50)
  = main Sim.no_last_state a (Sim.env 1) Cases.old_run 0 0 0 (repeat (Sim.plain 128) 50).
Proof.
  intros a.
  apply (autoresume_overrides_resume_from Sim.no_last_state a (Some "old/model_2")
           (Sim.env 1) Cases.old_run 0 0 0 (repeat (Sim.plain 128) 50)); reflexivity.
Defined.

Lemma final_save_without_parent_directory_witness :
  let a := Cases.run 2 2 None 10000 1000 "run" "ddp" false in
  let run := train_loop a (Sim.env 1) Sim.fresh (repeat (Sim.plain 128) 9) in
  fst run = Stopped /\
  updates (events (snd run)) = [2; 1] /\
  final_save a (snd run) = Py.Raise Py.FileNotFoundError /\
  match main Sim.no_last_state a (Sim.env 1) ∅ 0 0 0 (repeat (Sim.plain 128) 9) with
  | Crashed e _ _ => e = Py.FileNotFoundError
  | Finished _ _ => False
  end.
Proof.
  intros a run. split; [vm_compute; reflexivity|]. split; [vm_compute; reflexivity|].
  split; [|vm_compute; reflexivity].
  apply (final_save_without_parent_directory a); reflexivity.
Defined.

Lemma warm_up_restores_counters_witness :
  let a := set_warmed_up_model (Sim.args 4 102 (Some 100)) (Some "ckpt/warm") in
  let st0 := Sim.restart (Cases.saved_on ∅ "ckpt/warm") in
  exists st,
    load_warmed_up_model a st0 = Py.Ok st /\
    model st = 5 /\
    global_step st = ck_global_step Cases.checkpoint /\
    update_step st = ck_update_step Cases.checkpoint /\
    tokens_seen st = ck_tokens_seen Cases.checkpoint /\
    tokens_seen_before st = ck_tokens_seen_before Cases.checkpoint /\
    n_lora_restarts st = n_lora_restarts st0 /\
    local_step st = local_step st0 /\
    optimizer st = optimizer st0 /\
    scheduler st = scheduler st0.
Proof.
  intros a st0.
  apply (@warm_up_restores_counters Sim.collaborators a "ckpt/warm" Cases.checkpoint 5 2 2 ∅ st0).
  - reflexivity.
  - reflexivity.
Defined.



Lemma evaluation_pass_count_witness :
  @n_eval_iters Sim.collaborators Cases.eval_uneven 128 = Py.Ok 1 /\
  (@eval_rank Sim.collaborators Cases.eval_uneven 0 128 0 = Py.Raise Py.RuntimeError \/
   @eval_passes Sim.collaborators Cases.eval_uneven 0 128 0
   = Some (if 128 =? -1 then length (nth 0 Cases.eval_uneven [])
           else Nat.min (length (nth 0 Cases.eval_uneven [])) (Z.to_nat (1 + 1)))).
Proof.
  split; [vm_compute; reflexivity|].
  apply (@evaluation_pass_count Sim.collaborators Cases.eval_uneven 0 128 0 1).
  - discriminate.
  - reflexivity.
  - vm_compute. reflexivity.
  - intros batch Hin. simpl in Hin.
    destruct Hin as [<-|[<-|[<-|[]]]]; reflexivity.
Defined.

Lemma empty_batch_fails_evaluation_witness :
  @evaluate_model Sim.collaborators 0 Cases.eval_with_empty_batch 0 10000000
  = Py.Raise (Py.AssertionError "Batch size is zero").
Proof.
  apply (@empty_batch_fails_evaluation Sim.collaborators Cases.eval_with_empty_batch
           0 10000000 0 156250 1 (Sim.mkBatch 0 Sim.one)).
  - reflexivity.
  - vm_compute. reflexivity.
  - reflexivity.
  - simpl. lia.
  - intros k b Hk Hb. destruct k as [|k]; [|lia].
    simpl in Hb. injection Hb as <-. reflexivity.
  - right. lia.
Defined.

Lemma data_exhausted_before_break_witness :
  let a := Sim.args 4 10 None in
  let run := train_loop a (Sim.env 1) Sim.fresh (repeat (Sim.plain 128) 40) in
  update_step (snd run) = 10 /\
  fst run = Exhausted /\
  global_step (snd run) = global_step Sim.fresh + Z.of_nat 40 /\
  remaining a 4 (snd run) = remaining a 4 Sim.fresh - Z.of_nat 40 /\
  (Z.of_nat 40 = remaining a 4 Sim.fresh -> num_training_steps a <= update_step (snd run)).
Proof.
  intros a run. split; [vm_compute; reflexivity|].
  apply (data_exhausted_before_break a (Sim.env 1) 4 (repeat (Sim.plain 128) 40)
           eq_refl ltac:(lia) Sim.fresh (fst run) (snd run)).
  - apply surjective_pairing.
  - intros e. vm_compute. discriminate.
  - vm_compute. discriminate.
Defined.

Lemma no_loss_no_final_evaluation_witness :
  let a := Sim.args 2 2 None in
  let run := train_loop a (Sim.env 1) Cases.at_target (repeat (Sim.plain 128) 3) in
  fst run = Stopped /\
  match after_training a (Sim.env 1) (fst run) (snd run) with
  | Crashed e evs _ =>
      e = Py.UnboundLocalError /\
      evs = [EvSave "ckpt/run" (mkTrainingStateCheckpoint 6 2 512 512 0)]
  | Finished _ _ => False
  end /\
  forwards (events (snd run)) = [] /\
  exists e evs d,
    after_training a (Sim.env 1) (fst run) (snd run) = Crashed e evs d /\
    (forall st', final_save a (snd run) = Py.Ok st' -> e = Py.UnboundLocalError).
Proof.
  intros a run. split; [reflexivity|]. split; [vm_compute; split; reflexivity|].
  apply (no_loss_no_final_evaluation a (Sim.env 1) Cases.at_target
           (repeat (Sim.plain 128) 3)).
  - reflexivity.
  - left. simpl. lia.
Defined.
